(** * Background-removal front end: the model lifecycle wrapper and its callers

    Shallow embedding of
      - [src/utils/backgroundRemoval.ts]  (the lifecycle wrapper),
      - [src/App.tsx]                     (mount effect, [handleConfigChange],
                                           [handleFileSelect]),
      - [src/components/ConfigPanel.tsx]  ([updateConfig], [updateOutputConfig]).

    The neural network itself lives in the library [@imgly/background-removal];
    its two entry points [preload] and [removeBackground] are parameters of the
    development, as arbitrary functions of a hidden library state. *)

From Stdlib Require Import Bool List Ascii String NArith PrimFloat.
Import ListNotations.

Set Warnings "-inexact-float".

Local Open Scope string_scope.
Local Open Scope list_scope.

(** ** Configuration *)

(** The library's [Config], with the fields this repository sets.  The string
    literal unions of the library are enumerations here. *)

Inductive Device : Type := cpu | gpu.

Inductive Model : Type := isnet | isnet_fp16 | isnet_quint8.

Inductive Format : Type := image_png | image_jpeg | image_webp.

Inductive OutputType : Type := foreground | background | mask.

(** [quality] is a JS number: an IEEE 754 binary64 value. *)
Record Output : Type := {
  format : Format;
  quality : float;
  type : OutputType
}.

Record Config : Type := {
  debug : bool;
  device : Device;
  model : Model;
  output : Output
}.

(** The object literal [{ model, debug, device }] handed to [preload]. *)
Record PreloadConfig : Type := {
  preload_model : Model;
  preload_debug : bool;
  preload_device : Device
}.

Definition Device_eqb (a b : Device) : bool :=
  match a, b with
  | cpu, cpu | gpu, gpu => true
  | _, _ => false
  end.

Definition Model_eqb (a b : Model) : bool :=
  match a, b with
  | isnet, isnet | isnet_fp16, isnet_fp16 | isnet_quint8, isnet_quint8 => true
  | _, _ => false
  end.

(** The browser's [File], as far as the code looks at it. *)
Record File : Type := {
  file_name : string;
  file_type : string;
  file_size : N
}.

(** backgroundRemoval.ts, l.6-15 *)
Definition defaultConfig : Config := {|
  debug := false;
  device := cpu;
  model := isnet_fp16;
  output := {| format := image_png; quality := 0.8%float; type := foreground |}
|}.

(** A parameter with a default value: [None] is an omitted argument. *)
Definition arg_or_default {A : Type} (arg : option A) (dflt : A) : A :=
  match arg with
  | Some a => a
  | None => dflt
  end.

(** ** React state of [App] *)

Record ProcessedImage : Type := {
  original : string;
  processed : string;
  filename : string
}.

Record ReactState : Type := {
  isProcessing : bool;
  processedImage : option ProcessedImage;
  error : option string;
  modelLoaded : bool;
  loadingProgress : N;
  config : Config
}.

(** [useState] initial values, App.tsx l.14-20. *)
Definition initialReactState : ReactState := {|
  isProcessing := false;
  processedImage := None;
  error := None;
  modelLoaded := false;
  loadingProgress := 0%N;
  config := defaultConfig
|}.

(** ** Stand-ins for the library, used to run the program on examples *)

Module Fake.

(** The hidden state counts the calls made so far. *)
Definition World : Type := nat.
Definition ExtErr : Type := string.
Definition Blob : Type := Format.

Definition preload_ok (_ : PreloadConfig) (w : World)
  : (unit + ExtErr) * World :=
  (inl tt, S w).

Definition preload_fail (_ : PreloadConfig) (w : World)
  : (unit + ExtErr) * World :=
  (inr "Failed to fetch", S w).

Definition removeBackground_ok (_ : File) (config : Config) (w : World)
  : (Blob + ExtErr) * World :=
  (inl (format (output config)), S w).

Definition removeBackground_fail (_ : File) (_ : Config) (w : World)
  : (Blob + ExtErr) * World :=
  (inr "Unsupported format", S w).

Definition createObjectURL (_ : File + Blob) (w : World) : string * World :=
  ("blob:", S w).

Definition errorMessage (e : ExtErr) : option string := Some e.

(** The first call cannot fetch the model, the later ones can. *)
Definition preload_flaky (_ : PreloadConfig) (w : World)
  : (unit + ExtErr) * World :=
  match w with
  | O => (inr "Failed to fetch", S w)
  | S _ => (inl tt, S w)
  end.

(** An image of exactly 10 * 1024 * 1024 bytes. *)
Definition poster : File :=
  {| file_name := "poster.v2.jpeg";
     file_type := "image/jpeg";
     file_size := 10485760 |}.

Definition manual : File :=
  {| file_name := "manual.pdf";
     file_type := "application/pdf";
     file_size := 512 |}.

Definition photo : File :=
  {| file_name := "cat.png"; file_type := "image/png"; file_size := 2048 |}.

Definition quint8Config : Config :=
  {| debug := false;
     device := cpu;
     model := isnet_quint8;
     output := output defaultConfig |}.

End Fake.

Section Program.

(** ** The external library and the browser *)

(** [World] is the hidden state of the library and of the browser;
    [ExtErr] is whatever the library rejects a promise with; [Blob] is the
    result of an inference. *)
Variables (World ExtErr Blob : Type).

Variable preload : PreloadConfig -> World -> (unit + ExtErr) * World.
Variable removeBackground : File -> Config -> World -> (Blob + ExtErr) * World.
Variable createObjectURL : File + Blob -> World -> string * World.

(** [Some m] when the rejected value is an [Error] instance with message [m]. *)
Variable errorMessage : ExtErr -> option string.

(** Values the code of this repository throws or rethrows: a value coming
    out of the library, or an object made by [new Error(message)] here. *)
Inductive JsError : Type :=
| Raised (e : ExtErr)
| NewError (message : string).

(** ** Observable events *)

(** Calls to the two library primitives with their outcome, lines written by
    [console.error], and ghost markers for the entry into the three
    state-changing functions of the wrapper. *)
Inductive Event : Type :=
| EvLoadModel (config : Config)
| EvProcessImage (imageFile : File) (config : Config)
| EvResetModel
| EvPreload (args : PreloadConfig) (outcome : unit + ExtErr)
| EvRemoveBackground (imageFile : File) (config : Config) (outcome : Blob + ExtErr)
| EvConsoleError (label : string) (error : JsError).

(** ** Program state *)

(** [isModelLoaded] is the module variable of backgroundRemoval.ts (l.3).
    Every event of [trace] is stamped with the value [isModelLoaded] had
    when it happened. *)
Record State : Type := {
  isModelLoaded : bool;
  world : World;
  trace : list (bool * Event);
  react : ReactState
}.

(** ** Asynchronous computations, run to completion *)

(** A promise either resolves with a value or rejects with a thrown value;
    mutations made before a rejection stay. *)
Definition Async (A : Type) : Type := State -> (A + JsError) * State.

Definition ret {A : Type} (a : A) : Async A := fun s => (inl a, s).

Definition throw {A : Type} (e : JsError) : Async A := fun s => (inr e, s).

Definition bind {A B : Type} (m : Async A) (k : A -> Async B) : Async B :=
  fun s =>
    match m s with
    | (inl a, s') => k a s'
    | (inr e, s') => (inr e, s')
    end.

Definition try_catch {A : Type} (body : Async A) (handler : JsError -> Async A)
  : Async A :=
  fun s =>
    match body s with
    | (inl a, s') => (inl a, s')
    | (inr e, s') => handler e s'
    end.

(** [try { body } catch (e) { handler } finally { final }]: [final] runs
    after the body or the handler, whichever came last; the outcome is theirs
    unless [final] itself throws. *)
Definition try_catch_finally {A : Type} (body : Async A)
  (handler : JsError -> Async A) (final : Async unit) : Async A :=
  fun s =>
    match try_catch body handler s with
    | (r, s') =>
        match final s' with
        | (inl _, s'') => (r, s'')
        | (inr e, s'') => (inr e, s'')
        end
    end.

Definition emit (ev : Event) : Async unit :=
  fun s =>
    (inl tt,
     {| isModelLoaded := isModelLoaded s;
        world := world s;
        trace := trace s ++ [(isModelLoaded s, ev)];
        react := react s |}).

Definition get_isModelLoaded : Async bool :=
  fun s => (inl (isModelLoaded s), s).

Definition set_isModelLoaded (b : bool) : Async unit :=
  fun s =>
    (inl tt,
     {| isModelLoaded := b;
        world := world s;
        trace := trace s;
        react := react s |}).

Definition console_error (label : string) (error : JsError) : Async unit :=
  emit (EvConsoleError label error).

Definition lift_outcome {A : Type} (r : A + ExtErr) : A + JsError :=
  match r with
  | inl a => inl a
  | inr e => inr (Raised e)
  end.

(** [await preload(args)] *)
Definition await_preload (args : PreloadConfig) : Async unit :=
  fun s =>
    let (r, w) := preload args (world s) in
    (lift_outcome r,
     {| isModelLoaded := isModelLoaded s;
        world := w;
        trace := trace s ++ [(isModelLoaded s, EvPreload args r)];
        react := react s |}).

(** [await removeBackground(imageFile, config)] *)
Definition await_removeBackground (imageFile : File) (config : Config)
  : Async Blob :=
  fun s =>
    let (r, w) := removeBackground imageFile config (world s) in
    (lift_outcome r,
     {| isModelLoaded := isModelLoaded s;
        world := w;
        trace := trace s ++ [(isModelLoaded s, EvRemoveBackground imageFile config r)];
        react := react s |}).

Definition URL_createObjectURL (o : File + Blob) : Async string :=
  fun s =>
    let (url, w) := createObjectURL o (world s) in
    (inl url,
     {| isModelLoaded := isModelLoaded s;
        world := w;
        trace := trace s;
        react := react s |}).

Declare Scope async_scope.
Delimit Scope async_scope with async.
Notation "x <- m ;; k" := (bind m (fun x => k))
  (at level 61, m at next level, right associativity) : async_scope.
Notation "m ;; k" := (bind m (fun _ => k))
  (at level 61, right associativity) : async_scope.
Local Open Scope async_scope.

(** ** backgroundRemoval.ts *)

Definition preloadArgs (config : Config) : PreloadConfig :=
  {| preload_model := model config;
     preload_debug := debug config;
     preload_device := device config |}.

(** l.17-32 *)
Definition loadModel (config : option Config) : Async unit :=
  let config := arg_or_default config defaultConfig in
  emit (EvLoadModel config) ;;
  loaded <- get_isModelLoaded ;;
  if negb loaded then
    try_catch
      (await_preload (preloadArgs config) ;;
       set_isModelLoaded true)
      (fun error =>
         console_error "Failed to preload model:" error ;;
         throw error)
  else ret tt.

(** l.34-51 *)
Definition processImageBackgroundRemoval (imageFile : File)
  (config : option Config) : Async Blob :=
  let config := arg_or_default config defaultConfig in
  emit (EvProcessImage imageFile config) ;;
  try_catch
    (loaded <- get_isModelLoaded ;;
     (if negb loaded then loadModel (Some config) else ret tt) ;;
     blob <- await_removeBackground imageFile config ;;
     ret blob)
    (fun error =>
       console_error "Background removal failed:" error ;;
       throw (NewError "背景去除失败，请重试")).

(** l.54-56 *)
Definition isModelReady : Async bool := get_isModelLoaded.

(** l.59-61 *)
Definition resetModel : Async unit :=
  emit EvResetModel ;;
  set_isModelLoaded false.

(** ** App.tsx *)

Definition update_react (f : ReactState -> ReactState) : Async unit :=
  fun s =>
    (inl tt,
     {| isModelLoaded := isModelLoaded s;
        world := world s;
        trace := trace s;
        react := f (react s) |}).

Definition setIsProcessing (v : bool) : Async unit :=
  update_react (fun r =>
    {| isProcessing := v; processedImage := processedImage r;
       error := error r; modelLoaded := modelLoaded r;
       loadingProgress := loadingProgress r; config := config r |}).

Definition setProcessedImage (v : option ProcessedImage) : Async unit :=
  update_react (fun r =>
    {| isProcessing := isProcessing r; processedImage := v;
       error := error r; modelLoaded := modelLoaded r;
       loadingProgress := loadingProgress r; config := config r |}).

Definition setError (v : option string) : Async unit :=
  update_react (fun r =>
    {| isProcessing := isProcessing r; processedImage := processedImage r;
       error := v; modelLoaded := modelLoaded r;
       loadingProgress := loadingProgress r; config := config r |}).

Definition setModelLoaded (v : bool) : Async unit :=
  update_react (fun r =>
    {| isProcessing := isProcessing r; processedImage := processedImage r;
       error := error r; modelLoaded := v;
       loadingProgress := loadingProgress r; config := config r |}).

Definition setLoadingProgress (v : N) : Async unit :=
  update_react (fun r =>
    {| isProcessing := isProcessing r; processedImage := processedImage r;
       error := error r; modelLoaded := modelLoaded r;
       loadingProgress := v; config := config r |}).

Definition setConfig (v : Config) : Async unit :=
  update_react (fun r =>
    {| isProcessing := isProcessing r; processedImage := processedImage r;
       error := error r; modelLoaded := modelLoaded r;
       loadingProgress := loadingProgress r; config := v |}).

(** The handlers are closures over the [config] of the render that created
    them; that value is their first argument here. *)

(** l.25-40, the effect run once after the first render *)
Definition initModel (config : Config) : Async unit :=
  try_catch
    (setLoadingProgress 20 ;;
     loadModel (Some config) ;;
     setLoadingProgress 100 ;;
     setModelLoaded true)
    (fun err =>
       console_error "模型加载失败:" err ;;
       setError (Some "AI模型加载失败，请刷新页面重试") ;;
       setModelLoaded false).

(** The condition of l.47-51. *)
Definition modelConfigChanged (newConfig config : Config) : bool :=
  negb (Model_eqb (model newConfig) (model config))
  || negb (Device_eqb (device newConfig) (device config))
  || negb (Bool.eqb (debug newConfig) (debug config)).

(** l.43-68 *)
Definition handleConfigChange (config newConfig : Config) : Async unit :=
  setConfig newConfig ;;
  if modelConfigChanged newConfig config then
    setModelLoaded false ;;
    setLoadingProgress 0 ;;
    resetModel ;;
    try_catch
      (setLoadingProgress 20 ;;
       loadModel (Some newConfig) ;;
       setLoadingProgress 100 ;;
       setModelLoaded true ;;
       setError None)
      (fun err =>
         console_error "模型重新加载失败:" err ;;
         setError (Some "AI模型加载失败，请检查配置或刷新页面重试") ;;
         setModelLoaded false)
  else ret tt.

(** [err instanceof Error ? err.message : ...], l.102 *)
Definition messageOf (err : JsError) : string :=
  match err with
  | NewError m => m
  | Raised e =>
      match errorMessage e with
      | Some m => m
      | None => "处理图片时出现错误，请重试"
      end
  end.

(** l.70-107 *)
Definition handleFileSelect (config : Config) (file : File) : Async unit :=
  if negb (String.prefix "image/" (file_type file)) then
    setError (Some "请选择有效的图片文件（JPG、PNG、WEBP等）")
  else if (10 * 1024 * 1024 <? file_size file)%N then
    setError (Some "图片文件大小不能超过10MB")
  else
    ready <- isModelReady ;;
    if negb ready then
      setError (Some "AI模型尚未加载完成，请稍候再试")
    else
      setError None ;;
      setIsProcessing true ;;
      try_catch_finally
        (originalUrl <- URL_createObjectURL (inl file) ;;
         processedBlob <- processImageBackgroundRemoval file (Some config) ;;
         processedUrl <- URL_createObjectURL (inr processedBlob) ;;
         setProcessedImage
           (Some {| original := originalUrl;
                    processed := processedUrl;
                    filename := file_name file |}))
        (fun err =>
           setError (Some (messageOf err)) ;;
           console_error "Background removal error:" err)
        (setIsProcessing false).

(** ** ConfigPanel.tsx *)

(** [Partial<Config>] and [Partial<Config['output']>]: [None] is an absent key. *)
Record ConfigUpdates : Type := {
  upd_debug : option bool;
  upd_device : option Device;
  upd_model : option Model;
  upd_output : option Output
}.

Record OutputUpdates : Type := {
  upd_format : option Format;
  upd_quality : option float;
  upd_type : option OutputType
}.

(** [{ ...config, ...updates }] *)
Definition spreadConfig (config : Config) (updates : ConfigUpdates) : Config :=
  {| debug := arg_or_default (upd_debug updates) (debug config);
     device := arg_or_default (upd_device updates) (device config);
     model := arg_or_default (upd_model updates) (model config);
     output := arg_or_default (upd_output updates) (output config) |}.

(** [{ ...config.output, ...updates }] *)
Definition spreadOutput (o : Output) (updates : OutputUpdates) : Output :=
  {| format := arg_or_default (upd_format updates) (format o);
     quality := arg_or_default (upd_quality updates) (quality o);
     type := arg_or_default (upd_type updates) (type o) |}.

(** l.18-20; [config] and [onConfigChange] are the props of the panel. *)
Definition updateConfig (config : Config) (onConfigChange : Config -> Async unit)
  (updates : ConfigUpdates) : Async unit :=
  onConfigChange (spreadConfig config updates).

(** l.22-27 *)
Definition updateOutputConfig (config : Config)
  (onConfigChange : Config -> Async unit) (updates : OutputUpdates) : Async unit :=
  onConfigChange
    {| debug := debug config;
       device := device config;
       model := model config;
       output := spreadOutput (output config) updates |}.

(** ** The page as a transition system *)

(** What the user can do that reaches the wrapper or the configuration. *)
Inductive UiEvent : Type :=
| UpdateConfig (updates : ConfigUpdates)
| UpdateOutputConfig (updates : OutputUpdates)
| FileSelect (file : File).

(** One event handled to completion.  The handlers and the panel's props are
    those of the last render, hence closed over the current [config]
    (App.tsx l.68, l.107, l.180-185). *)
Definition dispatch (ev : UiEvent) (s : State) : State :=
  let config := config (react s) in
  snd (match ev with
       | UpdateConfig updates =>
           updateConfig config (handleConfigChange config) updates s
       | UpdateOutputConfig updates =>
           updateOutputConfig config (handleConfigChange config) updates s
       | FileSelect file =>
           handleFileSelect config file s
       end).

Definition initialState (w : World) : State :=
  {| isModelLoaded := false;
     world := w;
     trace := [];
     react := initialReactState |}.

(** First render followed by the mount effect. *)
Definition mount (w : World) : State :=
  snd (initModel (config initialReactState) (initialState w)).

Definition run (w : World) (evs : list UiEvent) : State :=
  fold_left (fun s ev => dispatch ev s) evs (mount w).

(** ** The wrapper driven directly *)

Inductive Op : Type :=
| OpLoad (config : option Config)
| OpProcessImage (imageFile : File) (config : option Config)
| OpIsReady
| OpReset.

Definition run_op (op : Op) (s : State) : State :=
  match op with
  | OpLoad c => snd (loadModel c s)
  | OpProcessImage f c => snd (processImageBackgroundRemoval f c s)
  | OpIsReady => snd (isModelReady s)
  | OpReset => snd (resetModel s)
  end.

Definition run_ops (ops : list Op) (s : State) : State :=
  fold_left (fun s op => run_op op s) ops s.

(** The configuration of the most recent operation that takes one. *)
Definition currentConfig (ops : list Op) : Config :=
  fold_left
    (fun cur op =>
       match op with
       | OpLoad c | OpProcessImage _ c => arg_or_default c defaultConfig
       | OpIsReady | OpReset => cur
       end)
    ops defaultConfig.

(** The caller's discipline the comment on [resetModel] asks for: a load or
    an inference whose model, device or debug differ from those of the
    previous one ([cur]) comes only after a reset ([wasReset]) with no load or
    inference in between. *)
Fixpoint resetsBeforeSwitch (cur : Config) (wasReset : bool) (ops : list Op)
  : bool :=
  match ops with
  | [] => true
  | OpLoad c :: rest | OpProcessImage _ c :: rest =>
      (wasReset || negb (modelConfigChanged (arg_or_default c defaultConfig) cur))
      && resetsBeforeSwitch (arg_or_default c defaultConfig) false rest
  | OpIsReady :: rest => resetsBeforeSwitch cur wasReset rest
  | OpReset :: rest => resetsBeforeSwitch cur true rest
  end.

(** ** Reading the trace *)

Definition is_loadModel (ev : bool * Event) : bool :=
  match snd ev with EvLoadModel _ => true | _ => false end.

Definition is_preload (ev : bool * Event) : bool :=
  match snd ev with EvPreload _ _ => true | _ => false end.

Definition is_removeBackground (ev : bool * Event) : bool :=
  match snd ev with EvRemoveBackground _ _ _ => true | _ => false end.

Definition count (p : bool * Event -> bool) (tr : list (bool * Event)) : nat :=
  List.length (filter p tr).

(** A [preload] that resolved replaces what the library holds. *)
Definition notePreload (acc : option PreloadConfig) (ev : bool * Event)
  : option PreloadConfig :=
  match snd ev with
  | EvPreload args (inl _) => Some args
  | _ => acc
  end.

(** The arguments of the most recent [preload] that resolved: the model the
    library holds. *)
Definition lastPreloaded (tr : list (bool * Event)) : option PreloadConfig :=
  fold_left notePreload tr None.

(** The readiness flag is up only if the library holds the model of [cfg]. *)
Definition readyConsistent (cfg : Config) (s : State) : Prop :=
  isModelLoaded s = true -> lastPreloaded (trace s) = Some (preloadArgs cfg).

(** The events that [s'] has and its predecessor [s] had not. *)
Definition newEvents (s s' : State) : list (bool * Event) :=
  skipn (List.length (trace s)) (trace s').

Definition is_processImage (ev : bool * Event) : bool :=
  match snd ev with EvProcessImage _ _ => true | _ => false end.

(** The flag as the trace tells it: a [preload] that resolved raises it, a
    [resetModel] lowers it. *)
Definition noteReady (acc : bool) (ev : bool * Event) : bool :=
  match snd ev with
  | EvResetModel => false
  | EvPreload _ (inl _) => true
  | _ => acc
  end.

Definition traceReady (tr : list (bool * Event)) : bool :=
  fold_left noteReady tr false.

(** The stamps a trace of the wrapper is expected to carry: [preload] is
    called with the flag down, [removeBackground] with the flag up. *)
Definition wellStamped (ev : bool * Event) : bool :=
  match snd ev with
  | EvPreload _ _ => negb (fst ev)
  | EvRemoveBackground _ _ _ => fst ev
  | _ => true
  end.

(** The stamps of a trace of the page: moreover [loadModel] is entered with
    the flag down and [processImageBackgroundRemoval] with the flag up. *)
Definition pageStamped (ev : bool * Event) : bool :=
  match snd ev with
  | EvLoadModel _ | EvPreload _ _ => negb (fst ev)
  | EvProcessImage _ _ | EvRemoveBackground _ _ _ => fst ev
  | _ => true
  end.

(** What holds of the page between two events. *)
Definition pageAtRest (s : State) : Prop :=
  modelLoaded (react s) = isModelLoaded s
  /\ loadingProgress (react s) = (if isModelLoaded s then 100 else 20)%N
  /\ isProcessing (react s) = false
  /\ isModelLoaded s = traceReady (trace s)
  /\ forallb pageStamped (trace s) = true.

(** Events that cannot touch [model], [device] or [debug]. *)
Definition leavesModel (ev : UiEvent) : bool :=
  match ev with
  | UpdateConfig _ => false
  | UpdateOutputConfig _ | FileSelect _ => true
  end.

(** ** App.tsx, the download link *)

(** The character class [[^/.]]. *)
Definition notSlashOrDot (c : ascii) : bool :=
  negb (Ascii.eqb c "/" || Ascii.eqb c ".").

(** [[^/.]*] up to the end of the string. *)
Fixpoint onlyNotSlashOrDot (s : string) : bool :=
  match s with
  | EmptyString => true
  | String c s' => notSlashOrDot c && onlyNotSlashOrDot s'
  end.

(** The regular expression [/\.[^/.]+$/] matched at the head of [s]: a dot,
    then at least one character, none of them a slash or a dot, then the
    end of the string. *)
Definition matchesExtension (s : string) : bool :=
  match s with
  | String c (String c' s') =>
      Ascii.eqb c "." && notSlashOrDot c' && onlyNotSlashOrDot s'
  | _ => false
  end.

(** [s.replace(/\.[^/.]+$/, '')]: the leftmost match is cut off; it reaches
    the end of the string.  Strings are sequences of bytes here and of UTF-16
    units in the browser; dot and slash are single units in both. *)
Fixpoint removeExtension (s : string) : string :=
  if matchesExtension s then EmptyString
  else
    match s with
    | EmptyString => EmptyString
    | String c s' => String c (removeExtension s')
    end.

(** l.143-144 *)
Definition extension (config : Config) : string :=
  match format (output config) with
  | image_png => "png"
  | image_jpeg => "jpg"
  | image_webp => "webp"
  end.

(** l.146-147 *)
Definition outputType (config : Config) : string :=
  match type (output config) with
  | foreground => "no-bg"
  | background => "bg-only"
  | mask => "mask"
  end.

(** The anchor element that [downloadImage] builds and clicks. *)
Record DownloadLink : Type := {
  href : string;
  download : string
}.

(** l.136-153; [processedImage] and [config] are those of the render that
    made the handler.  [None] is the early return. *)
Definition downloadImage (processedImage : option ProcessedImage)
  (config : Config) : option DownloadLink :=
  match processedImage with
  | None => None
  | Some image =>
      Some {| href := processed image;
              download := (outputType config ++ "-"
                           ++ removeExtension (filename image)
                           ++ "." ++ extension config)%string |}
  end.

(** * Properties *)

(** ** Lists and traces *)

Lemma skipn_length_app (A : Type) (l d : list A) :
  skipn (List.length l) (l ++ d) = d.
Proof.
  induction l as [| x l IH]; simpl; [reflexivity | exact IH].
Qed.

Lemma newEvents_app (s s' : State) (d : list (bool * Event)) :
  trace s' = trace s ++ d -> newEvents s s' = d.
Proof.
  unfold newEvents. intros ->. apply skipn_length_app.
Qed.

Lemma fold_notePreload_acc (d : list (bool * Event)) :
  forall acc,
    fold_left notePreload d acc =
    match fold_left notePreload d None with
    | Some args => Some args
    | None => acc
    end.
Proof.
  induction d as [| [b ev] d IH]; intros acc; simpl.
  - reflexivity.
  - rewrite (IH (notePreload acc (b, ev))), (IH (notePreload None (b, ev))).
    destruct (fold_left notePreload d None); [reflexivity |].
    unfold notePreload; simpl.
    destruct ev as [ | | | args [u | e] | | ]; reflexivity.
Qed.

Lemma lastPreloaded_app (tr d : list (bool * Event)) :
  lastPreloaded (tr ++ d) =
  match lastPreloaded d with
  | Some args => Some args
  | None => lastPreloaded tr
  end.
Proof.
  unfold lastPreloaded. rewrite fold_left_app. apply fold_notePreload_acc.
Qed.

(** ** The wrapper, one call at a time *)

Ltac unfold_wrapper :=
  unfold loadModel, processImageBackgroundRemoval, isModelReady, resetModel,
    console_error, await_preload, await_removeBackground,
    get_isModelLoaded, set_isModelLoaded, emit,
    try_catch, bind, ret, throw in *;
  simpl in *.

Ltac flatten_trace := rewrite <- ?app_assoc; simpl.

(** What [loadModel] does, by the flag and by the outcome of [preload]. *)

Lemma loadModel_ready (c : option Config) (s : State) :
  isModelLoaded s = true ->
  loadModel c s =
  (inl tt,
   {| isModelLoaded := true;
      world := world s;
      trace := trace s ++ [(true, EvLoadModel (arg_or_default c defaultConfig))];
      react := react s |}).
Proof.
  intros H. unfold_wrapper. rewrite H. reflexivity.
Qed.

Lemma loadModel_resolves (c : option Config) (s : State) (w : World) :
  isModelLoaded s = false ->
  preload (preloadArgs (arg_or_default c defaultConfig)) (world s) = (inl tt, w) ->
  loadModel c s =
  (inl tt,
   {| isModelLoaded := true;
      world := w;
      trace := trace s ++
               [(false, EvLoadModel (arg_or_default c defaultConfig));
                (false, EvPreload (preloadArgs (arg_or_default c defaultConfig))
                          (inl tt))];
      react := react s |}).
Proof.
  intros H P. unfold_wrapper. rewrite H. simpl. rewrite P. simpl.
  flatten_trace. reflexivity.
Qed.

Lemma loadModel_rejects (c : option Config) (s : State) (e : ExtErr) (w : World) :
  isModelLoaded s = false ->
  preload (preloadArgs (arg_or_default c defaultConfig)) (world s) = (inr e, w) ->
  loadModel c s =
  (inr (Raised e),
   {| isModelLoaded := false;
      world := w;
      trace := trace s ++
               [(false, EvLoadModel (arg_or_default c defaultConfig));
                (false, EvPreload (preloadArgs (arg_or_default c defaultConfig))
                          (inr e));
                (false, EvConsoleError "Failed to preload model:" (Raised e))];
      react := react s |}).
Proof.
  intros H P. unfold_wrapper. rewrite H. simpl. rewrite P. simpl.
  flatten_trace. reflexivity.
Qed.

(** What [processImageBackgroundRemoval] does, by the flag and by the
    outcomes of the two primitives. *)

Lemma processImage_ready (f : File) (c : option Config) (s : State)
  (r : Blob + ExtErr) (w : World) :
  isModelLoaded s = true ->
  removeBackground f (arg_or_default c defaultConfig) (world s) = (r, w) ->
  processImageBackgroundRemoval f c s =
  match r with
  | inl blob =>
      (inl blob,
       {| isModelLoaded := true;
          world := w;
          trace := trace s ++
                   [(true, EvProcessImage f (arg_or_default c defaultConfig));
                    (true, EvRemoveBackground f (arg_or_default c defaultConfig)
                             (inl blob))];
          react := react s |})
  | inr e =>
      (inr (NewError "背景去除失败，请重试"),
       {| isModelLoaded := true;
          world := w;
          trace := trace s ++
                   [(true, EvProcessImage f (arg_or_default c defaultConfig));
                    (true, EvRemoveBackground f (arg_or_default c defaultConfig)
                             (inr e));
                    (true, EvConsoleError "Background removal failed:" (Raised e))];
          react := react s |})
  end.
Proof.
  intros H R. unfold_wrapper. rewrite H. simpl. rewrite R.
  destruct r as [blob | e]; simpl; flatten_trace; reflexivity.
Qed.

Lemma processImage_lazy_load (f : File) (c : option Config) (s : State)
  (r : Blob + ExtErr) (w1 w2 : World) :
  isModelLoaded s = false ->
  preload (preloadArgs (arg_or_default c defaultConfig)) (world s) = (inl tt, w1) ->
  removeBackground f (arg_or_default c defaultConfig) w1 = (r, w2) ->
  processImageBackgroundRemoval f c s =
  match r with
  | inl blob =>
      (inl blob,
       {| isModelLoaded := true;
          world := w2;
          trace := trace s ++
                   [(false, EvProcessImage f (arg_or_default c defaultConfig));
                    (false, EvLoadModel (arg_or_default c defaultConfig));
                    (false, EvPreload (preloadArgs (arg_or_default c defaultConfig))
                              (inl tt));
                    (true, EvRemoveBackground f (arg_or_default c defaultConfig)
                             (inl blob))];
          react := react s |})
  | inr e =>
      (inr (NewError "背景去除失败，请重试"),
       {| isModelLoaded := true;
          world := w2;
          trace := trace s ++
                   [(false, EvProcessImage f (arg_or_default c defaultConfig));
                    (false, EvLoadModel (arg_or_default c defaultConfig));
                    (false, EvPreload (preloadArgs (arg_or_default c defaultConfig))
                              (inl tt));
                    (true, EvRemoveBackground f (arg_or_default c defaultConfig)
                             (inr e));
                    (true, EvConsoleError "Background removal failed:" (Raised e))];
          react := react s |})
  end.
Proof.
  intros H P R. unfold_wrapper. rewrite H. simpl.
  erewrite loadModel_resolves; [ | reflexivity | exact P ].
  simpl. rewrite R.
  destruct r as [blob | e]; simpl; flatten_trace; reflexivity.
Qed.

Lemma processImage_lazy_load_rejects (f : File) (c : option Config) (s : State)
  (e : ExtErr) (w : World) :
  isModelLoaded s = false ->
  preload (preloadArgs (arg_or_default c defaultConfig)) (world s) = (inr e, w) ->
  processImageBackgroundRemoval f c s =
  (inr (NewError "背景去除失败，请重试"),
   {| isModelLoaded := false;
      world := w;
      trace := trace s ++
               [(false, EvProcessImage f (arg_or_default c defaultConfig));
                (false, EvLoadModel (arg_or_default c defaultConfig));
                (false, EvPreload (preloadArgs (arg_or_default c defaultConfig))
                          (inr e));
                (false, EvConsoleError "Failed to preload model:" (Raised e));
                (false, EvConsoleError "Background removal failed:" (Raised e))];
      react := react s |}).
Proof.
  intros H P. unfold_wrapper. rewrite H. simpl.
  erewrite loadModel_rejects; [ | reflexivity | exact P ].
  simpl. flatten_trace. reflexivity.
Qed.

(** The outcome of a primitive, split for case analysis. *)
Lemma preload_cases (args : PreloadConfig) (w : World) :
  (exists w', preload args w = (inl tt, w')) \/
  (exists e w', preload args w = (inr e, w')).
Proof.
  destruct (preload args w) as [[[] | e] w'] eqn:E.
  - left. exists w'. reflexivity.
  - right. exists e, w'. reflexivity.
Qed.

(** Case analysis on a call of [processImageBackgroundRemoval]: the flag,
    then the outcome of each primitive that gets called. *)
Ltac rewrite_everywhere E :=
  rewrite ?E;
  repeat match goal with
         | H : _ |- _ => rewrite E in H
         end.

Ltac by_cases_processImage f c s :=
  let Hflag := fresh "Hflag" in
  let r := fresh "r" in
  let w1 := fresh "w1" in
  let w2 := fresh "w2" in
  let e0 := fresh "e0" in
  let P := fresh "P" in
  let R := fresh "R" in
  destruct (isModelLoaded s) eqn:Hflag;
  [ destruct (removeBackground f (arg_or_default c defaultConfig) (world s))
      as [r w2] eqn:R;
    rewrite_everywhere (processImage_ready f c s r w2 Hflag R);
    destruct r
  | destruct (preload_cases (preloadArgs (arg_or_default c defaultConfig))
                (world s)) as [[w1 P] | [e0 [w1 P]]];
    [ destruct (removeBackground f (arg_or_default c defaultConfig) w1)
        as [r w2] eqn:R;
      rewrite_everywhere (processImage_lazy_load f c s r w1 w2 Hflag P R);
      destruct r
    | rewrite_everywhere (processImage_lazy_load_rejects f c s e0 w1 Hflag P) ] ];
  unfold newEvents in *; cbn [fst snd trace] in *;
  rewrite ?skipn_length_app;
  repeat match goal with
         | H : _ |- _ => rewrite skipn_length_app in H
         end.

(** From [l = d1 ++ ev :: d2] with [l] an explicit list, enumerate the
    positions [ev] can have. *)
Ltac walk Hd Hev :=
  lazymatch type of Hd with
  | [] = _ ++ _ :: _ => destruct (app_cons_not_nil _ _ _ Hd)
  | _ :: _ = ?d1 ++ _ :: _ =>
      destruct d1 as [| ? d1]; simpl in Hd;
      [ injection Hd as ? ?; subst; simpl in Hev; try discriminate Hev
      | let Hx := fresh "Hx" in
        injection Hd as Hx Hd; subst; walk Hd Hev ]
  end.

(** C2. If [preload], called by [loadModel], rejects with [e], then
    [loadModel] rejects with that very [e], the readiness flag is still
    false, and the failure has been written to the console before. *)
Theorem loadModel_failure_rethrown (c : option Config) (s : State)
  (e : ExtErr) (w : World) :
  isModelLoaded s = false ->
  preload (preloadArgs (arg_or_default c defaultConfig)) (world s) = (inr e, w) ->
  fst (loadModel c s) = inr (Raised e)
  /\ isModelLoaded (snd (loadModel c s)) = false
  /\ fst (isModelReady (snd (loadModel c s))) = inl false
  /\ react (snd (loadModel c s)) = react s
  /\ newEvents s (snd (loadModel c s)) =
     [(false, EvLoadModel (arg_or_default c defaultConfig));
      (false, EvPreload (preloadArgs (arg_or_default c defaultConfig)) (inr e));
      (false, EvConsoleError "Failed to preload model:" (Raised e))].
Proof.
  intros H P. rewrite (loadModel_rejects c s e w H P). cbn [fst snd].
  repeat split. apply newEvents_app. reflexivity.
Qed.

(** C3. If [removeBackground], called by [processImageBackgroundRemoval],
    rejects with [e], then the call rejects with [new Error] of one fixed
    message, whatever [e] is, and [e] is in the console log. *)
Theorem inference_failure_is_generic (f : File) (c : option Config) (s : State)
  (b : bool) (f' : File) (c' : Config) (e : ExtErr) :
  In (b, EvRemoveBackground f' c' (inr e))
     (newEvents s (snd (processImageBackgroundRemoval f c s))) ->
  fst (processImageBackgroundRemoval f c s) =
    inr (NewError "背景去除失败，请重试")
  /\ In (true, EvConsoleError "Background removal failed:" (Raised e))
        (newEvents s (snd (processImageBackgroundRemoval f c s))).
Proof.
  clear createObjectURL errorMessage.
  intros H. by_cases_processImage f c s; simpl in H;
    repeat match goal with
           | H : _ \/ _ |- _ => destruct H as [H | H]
           | H : False |- _ => destruct H
           | H : (_, _) = (_, _) |- _ => injection H as ?; subst
           end;
    try discriminate;
    (split; [reflexivity | simpl; tauto]).
Qed.

(** C4. [loadModel] on a ready wrapper resolves at once and does not call
    [preload]; two calls in a row, the first of which resolves, call
    [preload] once in all. *)
Theorem loadModel_idempotent (c1 c2 : option Config) (s : State) :
  (isModelLoaded s = true ->
   fst (loadModel c1 s) = inl tt
   /\ count is_preload (newEvents s (snd (loadModel c1 s))) = 0
   /\ world (snd (loadModel c1 s)) = world s
   /\ isModelLoaded (snd (loadModel c1 s)) = true)
  /\ (isModelLoaded s = false ->
      fst (loadModel c1 s) = inl tt ->
      count is_preload
        (newEvents s (snd (loadModel c2 (snd (loadModel c1 s))))) = 1).
Proof.
  split.
  - intros H. rewrite (loadModel_ready c1 s H). cbn [fst snd].
    repeat split.
    erewrite newEvents_app by (cbn [trace]; reflexivity). reflexivity.
  - intros H Hok.
    destruct (preload_cases (preloadArgs (arg_or_default c1 defaultConfig))
                (world s)) as [[w P] | [e [w P]]].
    + rewrite (loadModel_resolves c1 s w H P). cbn [snd].
      rewrite loadModel_ready by reflexivity. cbn [snd].
      erewrite newEvents_app by (cbn [trace]; flatten_trace; reflexivity).
      reflexivity.
    + rewrite (loadModel_rejects c1 s e w H P) in Hok. discriminate Hok.
Qed.

(** C5. A call of [processImageBackgroundRemoval] enters [loadModel] once
    if the wrapper is not ready and not at all if it is; every call of
    [removeBackground] it makes happens with the flag up and, when the
    wrapper was not ready, after that one entry into [loadModel]. *)
Theorem processImage_loads_before_inference (f : File) (c : option Config)
  (s : State) :
  let d := newEvents s (snd (processImageBackgroundRemoval f c s)) in
  count is_loadModel d = (if isModelLoaded s then 0 else 1)
  /\ (forall d1 ev d2,
        d = d1 ++ ev :: d2 ->
        is_removeBackground ev = true ->
        fst ev = true
        /\ (isModelLoaded s = false -> count is_loadModel d1 = 1)).
Proof.
  cbv zeta. by_cases_processImage f c s;
    (split; [reflexivity |]);
    intros d1 ev d2 Hd Hev; walk Hd Hev;
    (split; [reflexivity | intros Hnr; first [reflexivity | discriminate Hnr]]).
Qed.

(** C6. If the wrapper is not ready and the [preload] of the lazy load
    rejects with [e], [processImageBackgroundRemoval] rejects with the
    generic inference error, not with [e]; [removeBackground] is not called
    and [e] is only in the console log. *)
Theorem lazy_load_failure_is_generic (f : File) (c : option Config) (s : State)
  (e : ExtErr) (w : World) :
  isModelLoaded s = false ->
  preload (preloadArgs (arg_or_default c defaultConfig)) (world s) = (inr e, w) ->
  fst (processImageBackgroundRemoval f c s) =
    inr (NewError "背景去除失败，请重试")
  /\ isModelLoaded (snd (processImageBackgroundRemoval f c s)) = false
  /\ newEvents s (snd (processImageBackgroundRemoval f c s)) =
     [(false, EvProcessImage f (arg_or_default c defaultConfig));
      (false, EvLoadModel (arg_or_default c defaultConfig));
      (false, EvPreload (preloadArgs (arg_or_default c defaultConfig)) (inr e));
      (false, EvConsoleError "Failed to preload model:" (Raised e));
      (false, EvConsoleError "Background removal failed:" (Raised e))].
Proof.
  intros H P. rewrite (processImage_lazy_load_rejects f c s e w H P). cbn [fst snd].
  repeat split. apply newEvents_app. reflexivity.
Qed.

(** C7. After a [loadModel] that resolved, [isModelReady] returns true. *)
Theorem isModelReady_after_loadModel (c : option Config) (s : State) :
  fst (loadModel c s) = inl tt ->
  isModelReady (snd (loadModel c s)) = (inl true, snd (loadModel c s)).
Proof.
  intros Hok. destruct (isModelLoaded s) eqn:H.
  - rewrite (loadModel_ready c s H). reflexivity.
  - destruct (preload_cases (preloadArgs (arg_or_default c defaultConfig))
                (world s)) as [[w P] | [e [w P]]].
    + rewrite (loadModel_resolves c s w H P). reflexivity.
    + rewrite (loadModel_rejects c s e w H P) in Hok. discriminate Hok.
Qed.

(** C8. After [resetModel], [isModelReady] returns false, whatever the flag
    was before. *)
Theorem isModelReady_after_resetModel (s : State) :
  fst (resetModel s) = inl tt
  /\ fst (isModelReady (snd (resetModel s))) = inl false.
Proof.
  split; reflexivity.
Qed.

(** C10. [loadModel] and [processImageBackgroundRemoval] called without a
    configuration are the same computations as with [defaultConfig], which
    is cpu, isnet_fp16, no debug, PNG foreground at quality 0.8. *)
Theorem omitted_config_is_defaultConfig (f : File) :
  loadModel None = loadModel (Some defaultConfig)
  /\ processImageBackgroundRemoval f None =
     processImageBackgroundRemoval f (Some defaultConfig)
  /\ defaultConfig =
     {| debug := false;
        device := cpu;
        model := isnet_fp16;
        output := {| format := image_png;
                     quality := 0.8%float;
                     type := foreground |} |}.
Proof.
  repeat split.
Qed.

(** ** The page *)

Lemma Model_eqb_eq (a b : Model) : Model_eqb a b = true <-> a = b.
Proof.
  destruct a, b; simpl; split; congruence.
Qed.

Lemma Device_eqb_eq (a b : Device) : Device_eqb a b = true <-> a = b.
Proof.
  destruct a, b; simpl; split; congruence.
Qed.

Lemma modelConfigChanged_false (newConfig config : Config) :
  modelConfigChanged newConfig config = false <->
  model newConfig = model config
  /\ device newConfig = device config
  /\ debug newConfig = debug config.
Proof.
  unfold modelConfigChanged.
  rewrite !orb_false_iff, !negb_false_iff.
  rewrite Model_eqb_eq, Device_eqb_eq, Bool.eqb_true_iff.
  apply and_assoc.
Qed.

Lemma modelConfigChanged_false_preloadArgs (newConfig config : Config) :
  modelConfigChanged newConfig config = false ->
  preloadArgs newConfig = preloadArgs config.
Proof.
  intros H. apply modelConfigChanged_false in H as (Hm & Hd & Hg).
  unfold preloadArgs. rewrite Hm, Hd, Hg. reflexivity.
Qed.

Ltac unfold_page :=
  unfold handleConfigChange, handleFileSelect, initModel,
    updateConfig, updateOutputConfig,
    setConfig, setError, setIsProcessing, setLoadingProgress, setModelLoaded,
    setProcessedImage, update_react, URL_createObjectURL,
    resetModel, isModelReady, console_error,
    try_catch_finally, try_catch, bind, ret, throw, emit,
    get_isModelLoaded, set_isModelLoaded in *.

(** [handleConfigChange] when no model-related field differs: only the React
    [config] changes. *)
Lemma handleConfigChange_same_model (config0 newConfig : Config) (s : State) :
  modelConfigChanged newConfig config0 = false ->
  handleConfigChange config0 newConfig s =
  (inl tt,
   {| isModelLoaded := isModelLoaded s;
      world := world s;
      trace := trace s;
      react := {| isProcessing := isProcessing (react s);
                  processedImage := processedImage (react s);
                  error := error (react s);
                  modelLoaded := modelLoaded (react s);
                  loadingProgress := loadingProgress (react s);
                  config := newConfig |} |}).
Proof.
  intros H. unfold_page. rewrite H. reflexivity.
Qed.

(** [handleConfigChange] when a model-related field differs: reset, then a
    real load of the new configuration. *)
Lemma handleConfigChange_reload (config0 newConfig : Config) (s : State) :
  modelConfigChanged newConfig config0 = true ->
  let s' := snd (handleConfigChange config0 newConfig s) in
  config (react s') = newConfig
  /\ ((exists w,
         preload (preloadArgs newConfig) (world s) = (inl tt, w)
         /\ isModelLoaded s' = true
         /\ world s' = w
         /\ trace s' = trace s ++
                       [(isModelLoaded s, EvResetModel);
                        (false, EvLoadModel newConfig);
                        (false, EvPreload (preloadArgs newConfig) (inl tt))])
      \/ (exists e w,
            preload (preloadArgs newConfig) (world s) = (inr e, w)
            /\ isModelLoaded s' = false
            /\ world s' = w
            /\ trace s' = trace s ++
                          [(isModelLoaded s, EvResetModel);
                           (false, EvLoadModel newConfig);
                           (false, EvPreload (preloadArgs newConfig) (inr e));
                           (false, EvConsoleError "Failed to preload model:"
                                     (Raised e));
                           (false, EvConsoleError "模型重新加载失败:"
                                     (Raised e))])).
Proof.
  intros H. cbv zeta.
  destruct (preload_cases (preloadArgs newConfig) (world s))
    as [[w P] | [e [w P]]].
  - unfold_page. rewrite H. simpl.
    erewrite loadModel_resolves; [ | reflexivity | exact P ].
    simpl. split; [reflexivity |]. left. exists w.
    repeat split; try assumption. flatten_trace. reflexivity.
  - unfold_page. rewrite H. simpl.
    erewrite loadModel_rejects; [ | reflexivity | exact P ].
    simpl. split; [reflexivity |]. right. exists e, w.
    repeat split; try assumption. flatten_trace. reflexivity.
Qed.

(** A load with the configuration the flag is consistent with keeps it so. *)
Lemma loadModel_keeps_consistent (c : option Config) (s : State) :
  readyConsistent (arg_or_default c defaultConfig) s ->
  readyConsistent (arg_or_default c defaultConfig) (snd (loadModel c s)).
Proof.
  unfold readyConsistent. intros Hs.
  destruct (isModelLoaded s) eqn:H.
  - rewrite (loadModel_ready c s H). cbn [snd isModelLoaded trace].
    intros _. rewrite lastPreloaded_app. exact (Hs eq_refl).
  - destruct (preload_cases (preloadArgs (arg_or_default c defaultConfig))
                (world s)) as [[w P] | [e [w P]]].
    + rewrite (loadModel_resolves c s w H P). cbn [snd isModelLoaded trace].
      intros _. rewrite lastPreloaded_app. reflexivity.
    + rewrite (loadModel_rejects c s e w H P). cbn [snd isModelLoaded].
      intros Hf. discriminate Hf.
Qed.

(** So does an inference, lazy load included. *)
Lemma processImage_keeps_consistent (f : File) (c : option Config) (s : State) :
  readyConsistent (arg_or_default c defaultConfig) s ->
  readyConsistent (arg_or_default c defaultConfig)
    (snd (processImageBackgroundRemoval f c s)).
Proof.
  unfold readyConsistent. intros Hs.
  by_cases_processImage f c s; cbn [isModelLoaded]; intros Hf;
    try discriminate Hf;
    rewrite lastPreloaded_app;
    first [ exact (Hs eq_refl) | reflexivity ].
Qed.

(** When the discipline lets an operation with configuration [c] through,
    the flag is consistent with [c] already. *)
Lemma switch_allowed (cur c : Config) (wasReset : bool) (s : State) :
  wasReset || negb (modelConfigChanged c cur) = true ->
  readyConsistent cur s ->
  (wasReset = true -> isModelLoaded s = false) ->
  readyConsistent c s.
Proof.
  unfold readyConsistent. intros D Hs Hr Hflag.
  destruct wasReset.
  - rewrite (Hr eq_refl) in Hflag. discriminate Hflag.
  - simpl in D. apply negb_true_iff in D.
    rewrite (modelConfigChanged_false_preloadArgs _ _ D). exact (Hs Hflag).
Qed.

Lemma fold_run_op_consistent (ops : list Op) :
  forall (cur : Config) (wasReset : bool) (s : State),
    resetsBeforeSwitch cur wasReset ops = true ->
    readyConsistent cur s ->
    (wasReset = true -> isModelLoaded s = false) ->
    readyConsistent
      (fold_left
         (fun cur op =>
            match op with
            | OpLoad c | OpProcessImage _ c => arg_or_default c defaultConfig
            | OpIsReady | OpReset => cur
            end)
         ops cur)
      (fold_left (fun s op => run_op op s) ops s).
Proof.
  induction ops as [| op ops IH]; intros cur wasReset s D Hs Hr.
  - exact Hs.
  - destruct op as [c | f c | | ]; simpl in D; cbn [fold_left].
    + apply andb_true_iff in D. destruct D as [D1 D2].
      apply (IH _ false); [ exact D2 | | intros Hf; discriminate Hf ].
      apply loadModel_keeps_consistent.
      exact (switch_allowed cur _ wasReset s D1 Hs Hr).
    + apply andb_true_iff in D. destruct D as [D1 D2].
      apply (IH _ false); [ exact D2 | | intros Hf; discriminate Hf ].
      apply processImage_keeps_consistent.
      exact (switch_allowed cur _ wasReset s D1 Hs Hr).
    + apply (IH cur wasReset); assumption.
    + apply (IH cur true); [ exact D | | reflexivity ].
      intros Hf. discriminate Hf.
Qed.

Lemma newEvents_nil (s s' : State) :
  trace s' = trace s -> newEvents s s' = [].
Proof.
  intros H. apply newEvents_app. rewrite app_nil_r. exact H.
Qed.


(** C9. A configuration change that leaves [model], [device] and [debug] as
    they are, such as any change made through [updateOutputConfig], neither
    resets nor reloads: flag, library state and trace stay the same, and only
    the React [config] is replaced. *)
Theorem output_change_keeps_model (config0 newConfig : Config)
  (updates : OutputUpdates) (s : State) :
  (model newConfig = model config0 ->
   device newConfig = device config0 ->
   debug newConfig = debug config0 ->
   let s' := snd (handleConfigChange config0 newConfig s) in
   isModelLoaded s' = isModelLoaded s
   /\ world s' = world s
   /\ trace s' = trace s
   /\ newEvents s s' = []
   /\ config (react s') = newConfig)
  /\ (let s' := snd (updateOutputConfig config0 (handleConfigChange config0)
                       updates s) in
      isModelLoaded s' = isModelLoaded s
      /\ world s' = world s
      /\ trace s' = trace s
      /\ newEvents s s' = []
      /\ config (react s') =
         {| debug := debug config0;
            device := device config0;
            model := model config0;
            output := spreadOutput (output config0) updates |}).
Proof.
  split.
  - intros Hm Hd Hg. cbv zeta.
    rewrite handleConfigChange_same_model
      by (apply modelConfigChanged_false; auto).
    cbn [snd]. repeat split. apply newEvents_nil. reflexivity.
  - cbv zeta. unfold updateOutputConfig.
    rewrite handleConfigChange_same_model
      by (apply modelConfigChanged_false; auto).
    cbn [snd]. repeat split. apply newEvents_nil. reflexivity.
Qed.

(** * Further properties of the wrapper *)

Lemma traceReady_app (tr d : list (bool * Event)) :
  traceReady (tr ++ d) = fold_left noteReady d (traceReady tr).
Proof.
  unfold traceReady. apply fold_left_app.
Qed.

(** Case analysis on a call of [loadModel]. *)
Ltac by_cases_loadModel c s :=
  let Hflag := fresh "Hflag" in
  let w1 := fresh "w1" in
  let e0 := fresh "e0" in
  let P := fresh "P" in
  destruct (isModelLoaded s) eqn:Hflag;
  [ rewrite_everywhere (loadModel_ready c s Hflag)
  | destruct (preload_cases (preloadArgs (arg_or_default c defaultConfig))
                (world s)) as [[w1 P] | [e0 [w1 P]]];
    [ rewrite_everywhere (loadModel_resolves c s w1 Hflag P)
    | rewrite_everywhere (loadModel_rejects c s e0 w1 Hflag P) ] ];
  unfold newEvents in *; cbn [fst snd trace isModelLoaded world react] in *;
  rewrite ?skipn_length_app;
  repeat match goal with
         | H : _ |- _ => rewrite skipn_length_app in H
         end.

(** The flag agrees with the trace, and the stamps are as expected, before
    and after every operation of the wrapper. *)
Lemma run_op_keeps_trace_invariant (op : Op) (s : State) :
  isModelLoaded s = traceReady (trace s)
  /\ forallb wellStamped (trace s) = true ->
  isModelLoaded (run_op op s) = traceReady (trace (run_op op s))
  /\ forallb wellStamped (trace (run_op op s)) = true.
Proof.
  intros [Hr Hs]. destruct op as [c | f c | | ]; unfold run_op.
  - by_cases_loadModel c s;
      rewrite traceReady_app, forallb_app, Hs; unfold noteReady; simpl;
      split; congruence.
  - by_cases_processImage f c s;
      rewrite traceReady_app, forallb_app, Hs; unfold noteReady; simpl;
      split; congruence.
  - simpl. split; assumption.
  - unfold resetModel, bind, emit, set_isModelLoaded. simpl.
    rewrite traceReady_app, forallb_app, Hs. simpl. split; reflexivity.
Qed.

Lemma run_ops_keeps_trace_invariant (ops : list Op) :
  forall s,
    isModelLoaded s = traceReady (trace s)
    /\ forallb wellStamped (trace s) = true ->
    isModelLoaded (run_ops ops s) = traceReady (trace (run_ops ops s))
    /\ forallb wellStamped (trace (run_ops ops s)) = true.
Proof.
  induction ops as [| op ops IH]; intros s H; simpl.
  - exact H.
  - apply IH. apply run_op_keeps_trace_invariant. exact H.
Qed.

(** X1. Whatever operations are run on a fresh wrapper, the readiness flag
    is true exactly when, of the resets and the resolved preloads so far, the
    latest is a resolved preload. *)
Theorem wrapper_flag_follows_trace (w : World) (ops : list Op) :
  isModelLoaded (run_ops ops (initialState w)) =
  traceReady (trace (run_ops ops (initialState w))).
Proof.
  apply run_ops_keeps_trace_invariant. split; reflexivity.
Qed.

(** X2. Whatever operations are run on a fresh wrapper, [preload] is only
    ever called with the flag down and [removeBackground] only with the flag
    up. *)
Theorem wrapper_calls_well_stamped (w : World) (ops : list Op) :
  forallb wellStamped (trace (run_ops ops (initialState w))) = true.
Proof.
  apply run_ops_keeps_trace_invariant. split; reflexivity.
Qed.

(** X3. Only [resetModel] lowers the flag: a load, an inference (failed or
    not) and a readiness query leave a ready wrapper ready. *)
Theorem only_resetModel_lowers_flag (op : Op) (s : State) :
  isModelLoaded s = true ->
  op <> OpReset ->
  isModelLoaded (run_op op s) = true.
Proof.
  intros H Hop. destruct op as [c | f c | | ]; unfold run_op.
  - rewrite (loadModel_ready c s H). reflexivity.
  - destruct (removeBackground f (arg_or_default c defaultConfig) (world s))
      as [r w] eqn:R.
    rewrite (processImage_ready f c s r w H R). destruct r; reflexivity.
  - exact H.
  - contradiction Hop. reflexivity.
Qed.


(** X5. A failed load can be retried: if [preload] rejects and then, asked
    again, resolves, the second [loadModel] calls it again, resolves and
    leaves the wrapper ready. *)
Theorem loadModel_retry_after_failure (c : option Config) (s : State)
  (e : ExtErr) (w1 w2 : World) :
  isModelLoaded s = false ->
  preload (preloadArgs (arg_or_default c defaultConfig)) (world s) = (inr e, w1) ->
  preload (preloadArgs (arg_or_default c defaultConfig)) w1 = (inl tt, w2) ->
  fst (loadModel c (snd (loadModel c s))) = inl tt
  /\ isModelLoaded (snd (loadModel c (snd (loadModel c s)))) = true
  /\ count is_preload
       (newEvents s (snd (loadModel c (snd (loadModel c s))))) = 2.
Proof.
  intros H P1 P2. rewrite (loadModel_rejects c s e w1 H P1). cbn [snd].
  erewrite loadModel_resolves; [ | reflexivity | exact P2 ].
  cbn [fst snd isModelLoaded]. repeat split.
  erewrite newEvents_app by (cbn [trace]; flatten_trace; reflexivity).
  reflexivity.
Qed.

(** X6. One call of [processImageBackgroundRemoval] calls [removeBackground]
    at most once, with the file and the configuration it was given, and its
    result is decided by that call: the blob itself, or the generic error. *)
Theorem processImage_single_inference (f : File) (c : option Config) (s : State) :
  let d := newEvents s (snd (processImageBackgroundRemoval f c s)) in
  count is_removeBackground d <= 1
  /\ (forall b f' c' outcome,
        In (b, EvRemoveBackground f' c' outcome) d ->
        f' = f
        /\ c' = arg_or_default c defaultConfig
        /\ fst (processImageBackgroundRemoval f c s) =
           match outcome with
           | inl blob => inl blob
           | inr _ => inr (NewError "背景去除失败，请重试")
           end).
Proof.
  clear createObjectURL errorMessage.
  cbv zeta. by_cases_processImage f c s;
    (split; [ cbv [count]; simpl; auto |]);
    intros stamp f' c' outcome H; simpl in H;
    repeat match goal with
           | H : _ \/ _ |- _ => destruct H as [H | H]
           | H : False |- _ => destruct H
           end;
    try discriminate H;
    injection H as ? ? ? ?; subst; repeat split.
Qed.

(** X7. Loading looks at [model], [debug] and [device] only: two
    configurations that agree on them give the same outcome, the same flag,
    the same library state and the same calls of [preload]. *)
Theorem loadModel_ignores_output (c1 c2 : Config) (s : State) :
  preloadArgs c1 = preloadArgs c2 ->
  fst (loadModel (Some c1) s) = fst (loadModel (Some c2) s)
  /\ isModelLoaded (snd (loadModel (Some c1) s)) =
     isModelLoaded (snd (loadModel (Some c2) s))
  /\ world (snd (loadModel (Some c1) s)) = world (snd (loadModel (Some c2) s))
  /\ filter is_preload (newEvents s (snd (loadModel (Some c1) s))) =
     filter is_preload (newEvents s (snd (loadModel (Some c2) s))).
Proof.
  intros Heq. destruct (isModelLoaded s) eqn:H.
  - rewrite !loadModel_ready by exact H. cbn [fst snd isModelLoaded world].
    repeat split.
    erewrite !newEvents_app by (cbn [trace]; reflexivity). reflexivity.
  - destruct (preload_cases (preloadArgs c1) (world s)) as [[w P] | [e [w P]]].
    + rewrite (loadModel_resolves (Some c1) s w H P).
      rewrite Heq in P. rewrite (loadModel_resolves (Some c2) s w H P).
      cbn [fst snd isModelLoaded world]. repeat split.
      erewrite !newEvents_app by (cbn [trace]; reflexivity).
      simpl. rewrite Heq. reflexivity.
    + rewrite (loadModel_rejects (Some c1) s e w H P).
      rewrite Heq in P. rewrite (loadModel_rejects (Some c2) s e w H P).
      cbn [fst snd isModelLoaded world]. repeat split.
      erewrite !newEvents_app by (cbn [trace]; reflexivity).
      simpl. rewrite Heq. reflexivity.
Qed.

(** * Further properties of the page *)

(** ** The handlers, outcome by outcome *)

Lemma mount_resolves (w w' : World) :
  preload (preloadArgs defaultConfig) w = (inl tt, w') ->
  mount w =
  {| isModelLoaded := true;
     world := w';
     trace := [(false, EvLoadModel defaultConfig);
               (false, EvPreload (preloadArgs defaultConfig) (inl tt))];
     react := {| isProcessing := false;
                 processedImage := None;
                 error := None;
                 modelLoaded := true;
                 loadingProgress := 100;
                 config := defaultConfig |} |}.
Proof.
  intros P. unfold mount. unfold_page. simpl.
  erewrite loadModel_resolves; [ | reflexivity | exact P ].
  reflexivity.
Qed.

Lemma mount_rejects (w w' : World) (e : ExtErr) :
  preload (preloadArgs defaultConfig) w = (inr e, w') ->
  mount w =
  {| isModelLoaded := false;
     world := w';
     trace := [(false, EvLoadModel defaultConfig);
               (false, EvPreload (preloadArgs defaultConfig) (inr e));
               (false, EvConsoleError "Failed to preload model:" (Raised e));
               (false, EvConsoleError "模型加载失败:" (Raised e))];
     react := {| isProcessing := false;
                 processedImage := None;
                 error := Some "AI模型加载失败，请刷新页面重试";
                 modelLoaded := false;
                 loadingProgress := 20;
                 config := defaultConfig |} |}.
Proof.
  intros P. unfold mount. unfold_page. simpl.
  erewrite loadModel_rejects; [ | reflexivity | exact P ].
  reflexivity.
Qed.

Lemma handleConfigChange_reload_resolves (config0 newConfig : Config)
  (s : State) (w : World) :
  modelConfigChanged newConfig config0 = true ->
  preload (preloadArgs newConfig) (world s) = (inl tt, w) ->
  handleConfigChange config0 newConfig s =
  (inl tt,
   {| isModelLoaded := true;
      world := w;
      trace := trace s ++
               [(isModelLoaded s, EvResetModel);
                (false, EvLoadModel newConfig);
                (false, EvPreload (preloadArgs newConfig) (inl tt))];
      react := {| isProcessing := isProcessing (react s);
                  processedImage := processedImage (react s);
                  error := None;
                  modelLoaded := true;
                  loadingProgress := 100;
                  config := newConfig |} |}).
Proof.
  intros H P. unfold_page. rewrite H. simpl.
  erewrite loadModel_resolves; [ | reflexivity | exact P ].
  simpl. flatten_trace. reflexivity.
Qed.

Lemma handleConfigChange_reload_rejects (config0 newConfig : Config)
  (s : State) (e : ExtErr) (w : World) :
  modelConfigChanged newConfig config0 = true ->
  preload (preloadArgs newConfig) (world s) = (inr e, w) ->
  handleConfigChange config0 newConfig s =
  (inl tt,
   {| isModelLoaded := false;
      world := w;
      trace := trace s ++
               [(isModelLoaded s, EvResetModel);
                (false, EvLoadModel newConfig);
                (false, EvPreload (preloadArgs newConfig) (inr e));
                (false, EvConsoleError "Failed to preload model:" (Raised e));
                (false, EvConsoleError "模型重新加载失败:" (Raised e))];
      react := {| isProcessing := isProcessing (react s);
                  processedImage := processedImage (react s);
                  error := Some "AI模型加载失败，请检查配置或刷新页面重试";
                  modelLoaded := false;
                  loadingProgress := 20;
                  config := newConfig |} |}).
Proof.
  intros H P. unfold_page. rewrite H. simpl.
  erewrite loadModel_rejects; [ | reflexivity | exact P ].
  simpl. flatten_trace. reflexivity.
Qed.

(** The three refusals of [handleFileSelect], in the order they are tried. *)
Lemma handleFileSelect_refuses (config0 : Config) (file : File) (s : State) :
  negb (String.prefix "image/" (file_type file))
  || (10 * 1024 * 1024 <? file_size file)%N
  || negb (isModelLoaded s) = true ->
  handleFileSelect config0 file s =
  setError
    (Some (if negb (String.prefix "image/" (file_type file))
           then "请选择有效的图片文件（JPG、PNG、WEBP等）"
           else if (10 * 1024 * 1024 <? file_size file)%N
                then "图片文件大小不能超过10MB"
                else "AI模型尚未加载完成，请稍候再试")) s.
Proof.
  intros H. unfold handleFileSelect.
  destruct (negb (String.prefix "image/" (file_type file))); [reflexivity |].
  destruct (10 * 1024 * 1024 <? file_size file)%N; [reflexivity |].
  simpl in H. unfold isModelReady, get_isModelLoaded, bind.
  rewrite H. reflexivity.
Qed.

Lemma handleFileSelect_success (config0 : Config) (file : File) (s : State)
  (url1 url2 : string) (blob : Blob) (w1 w2 w3 : World) :
  String.prefix "image/" (file_type file) = true ->
  (10 * 1024 * 1024 <? file_size file)%N = false ->
  isModelLoaded s = true ->
  createObjectURL (inl file) (world s) = (url1, w1) ->
  removeBackground file config0 w1 = (inl blob, w2) ->
  createObjectURL (inr blob) w2 = (url2, w3) ->
  handleFileSelect config0 file s =
  (inl tt,
   {| isModelLoaded := true;
      world := w3;
      trace := trace s ++
               [(true, EvProcessImage file config0);
                (true, EvRemoveBackground file config0 (inl blob))];
      react := {| isProcessing := false;
                  processedImage := Some {| original := url1;
                                            processed := url2;
                                            filename := file_name file |};
                  error := None;
                  modelLoaded := modelLoaded (react s);
                  loadingProgress := loadingProgress (react s);
                  config := config (react s) |} |}).
Proof.
  intros Ht Hz Hflag U1 R U2. unfold handleFileSelect.
  rewrite Ht, Hz. cbn [negb]. unfold_page. simpl.
  rewrite Hflag. simpl. rewrite U1. simpl.
  erewrite processImage_ready; [ | exact Hflag | exact R ].
  simpl. rewrite U2. reflexivity.
Qed.

Lemma handleFileSelect_failure (config0 : Config) (file : File) (s : State)
  (url1 : string) (e : ExtErr) (w1 w2 : World) :
  String.prefix "image/" (file_type file) = true ->
  (10 * 1024 * 1024 <? file_size file)%N = false ->
  isModelLoaded s = true ->
  createObjectURL (inl file) (world s) = (url1, w1) ->
  removeBackground file config0 w1 = (inr e, w2) ->
  handleFileSelect config0 file s =
  (inl tt,
   {| isModelLoaded := true;
      world := w2;
      trace := trace s ++
               [(true, EvProcessImage file config0);
                (true, EvRemoveBackground file config0 (inr e));
                (true, EvConsoleError "Background removal failed:" (Raised e));
                (true, EvConsoleError "Background removal error:"
                         (NewError "背景去除失败，请重试"))];
      react := {| isProcessing := false;
                  processedImage := processedImage (react s);
                  error := Some "背景去除失败，请重试";
                  modelLoaded := modelLoaded (react s);
                  loadingProgress := loadingProgress (react s);
                  config := config (react s) |} |}).
Proof.
  intros Ht Hz Hflag U1 R. unfold handleFileSelect.
  rewrite Ht, Hz. cbn [negb]. unfold_page. simpl.
  rewrite Hflag. simpl. rewrite U1. simpl.
  erewrite processImage_ready; [ | exact Hflag | exact R ].
  simpl. flatten_trace. reflexivity.
Qed.

(** Case analysis on a call of [handleFileSelect]: refused, or accepted and
    then the outcome of the inference. *)
Ltac by_cases_handleFileSelect c f s :=
  let G := fresh "G" in
  let Htype := fresh "Htype" in
  let Hsize := fresh "Hsize" in
  let Hready := fresh "Hready" in
  let url1 := fresh "url1" in
  let url2 := fresh "url2" in
  let w1 := fresh "w1" in
  let w2 := fresh "w2" in
  let w3 := fresh "w3" in
  let blob := fresh "blob" in
  let e0 := fresh "e0" in
  let U1 := fresh "U1" in
  let U2 := fresh "U2" in
  let R := fresh "R" in
  destruct (negb (String.prefix "image/" (file_type f))
            || (10 * 1024 * 1024 <? file_size f)%N
            || negb (isModelLoaded s)) eqn:G;
  [ rewrite_everywhere (handleFileSelect_refuses c f s G)
  | apply orb_false_iff in G; destruct G as [G Hready];
    apply orb_false_iff in G; destruct G as [Htype Hsize];
    apply negb_false_iff in Htype; apply negb_false_iff in Hready;
    destruct (createObjectURL (inl f) (world s)) as [url1 w1] eqn:U1;
    destruct (removeBackground f c w1) as [[blob | e0] w2] eqn:R;
    [ destruct (createObjectURL (inr blob) w2) as [url2 w3] eqn:U2;
      rewrite_everywhere
        (handleFileSelect_success c f s url1 url2 blob w1 w2 w3
           Htype Hsize Hready U1 R U2)
    | rewrite_everywhere
        (handleFileSelect_failure c f s url1 e0 w1 w2
           Htype Hsize Hready U1 R) ] ];
  unfold newEvents, setError, update_react in *;
  cbn [fst snd trace isModelLoaded world react] in *;
  rewrite ?skipn_length_app;
  repeat match goal with
         | H : _ |- _ => rewrite skipn_length_app in H
         end.

Lemma skipn_length_self (A : Type) (l : list A) :
  skipn (List.length l) l = [].
Proof.
  induction l as [| x l IH]; simpl; [reflexivity | exact IH].
Qed.

(** ** The page between two events *)

Lemma mount_at_rest (w : World) : pageAtRest (mount w).
Proof.
  destruct (preload_cases (preloadArgs defaultConfig) w) as [[w' P] | [e [w' P]]].
  - rewrite (mount_resolves w w' P). repeat split.
  - rewrite (mount_rejects w w' e P). repeat split.
Qed.

Lemma handleConfigChange_at_rest (newConfig : Config) (s : State) :
  pageAtRest s ->
  pageAtRest (snd (handleConfigChange (config (react s)) newConfig s)).
Proof.
  intros (Hm & Hp & Hi & Hr & Hs).
  destruct (modelConfigChanged newConfig (config (react s))) eqn:Hc.
  - destruct (preload_cases (preloadArgs newConfig) (world s))
      as [[w P] | [e [w P]]].
    + rewrite (handleConfigChange_reload_resolves _ _ s w Hc P).
      unfold pageAtRest. cbn [snd isModelLoaded trace react modelLoaded
                                loadingProgress isProcessing].
      rewrite traceReady_app, forallb_app, Hs. repeat split. exact Hi.
    + rewrite (handleConfigChange_reload_rejects _ _ s e w Hc P).
      unfold pageAtRest. cbn [snd isModelLoaded trace react modelLoaded
                                loadingProgress isProcessing].
      rewrite traceReady_app, forallb_app, Hs. repeat split. exact Hi.
  - rewrite (handleConfigChange_same_model _ _ s Hc).
    unfold pageAtRest. cbn [snd isModelLoaded trace react modelLoaded
                              loadingProgress isProcessing].
    repeat split; assumption.
Qed.

Lemma handleFileSelect_at_rest (file : File) (s : State) :
  pageAtRest s ->
  pageAtRest (snd (handleFileSelect (config (react s)) file s)).
Proof.
  intros (Hm & Hp & Hi & Hr & Hs). unfold pageAtRest.
  by_cases_handleFileSelect (config (react s)) file s;
    cbn [modelLoaded loadingProgress isProcessing];
    rewrite ?traceReady_app, ?forallb_app, ?Hs;
    rewrite ?Hready in *; repeat split; try assumption.
Qed.

Lemma dispatch_at_rest (ev : UiEvent) (s : State) :
  pageAtRest s -> pageAtRest (dispatch ev s).
Proof.
  intros H. destruct ev as [updates | updates | file]; unfold dispatch.
  - unfold updateConfig. apply handleConfigChange_at_rest. exact H.
  - unfold updateOutputConfig. apply handleConfigChange_at_rest. exact H.
  - apply handleFileSelect_at_rest. exact H.
Qed.

Lemma run_at_rest (w : World) (evs : list UiEvent) : pageAtRest (run w evs).
Proof.
  unfold run. generalize (mount_at_rest w). generalize (mount w).
  induction evs as [| ev evs IH]; intros s H; simpl.
  - exact H.
  - apply IH. apply dispatch_at_rest. exact H.
Qed.

(** X8. The condition under which [handleConfigChange] reloads is exactly
    that the arguments [loadModel] would pass to [preload] differ. *)
Theorem modelConfigChanged_iff_preloadArgs (newConfig config0 : Config) :
  modelConfigChanged newConfig config0 = false <->
  preloadArgs newConfig = preloadArgs config0.
Proof.
  rewrite modelConfigChanged_false. unfold preloadArgs. split.
  - intros (Hm & Hd & Hg). rewrite Hm, Hd, Hg. reflexivity.
  - intros H. injection H as Hm Hg Hd. auto.
Qed.


(** X10. Between events the progress value is 100 when the model is loaded
    and stays at 20 when the last load failed. *)
Theorem page_progress_at_rest (w : World) (evs : list UiEvent) :
  loadingProgress (react (run w evs)) =
  (if isModelLoaded (run w evs) then 100 else 20)%N.
Proof.
  apply (run_at_rest w evs).
Qed.

(** X11. Between events [isProcessing] is false: the [finally] of
    [handleFileSelect] clears it after a success and after a failure. *)
Theorem page_not_processing_at_rest (w : World) (evs : list UiEvent) :
  isProcessing (react (run w evs)) = false.
Proof.
  apply (run_at_rest w evs).
Qed.

(** X12. On the page, [loadModel] is only entered with the flag down and
    [processImageBackgroundRemoval] only with the flag up: no load is a
    no-op, and the lazy load inside the inference never runs. *)
Theorem page_calls_stamped (w : World) (evs : list UiEvent) :
  forallb pageStamped (trace (run w evs)) = true.
Proof.
  apply (run_at_rest w evs).
Qed.

(** X13. A file that is not an image, or is larger than 10 MB, or arrives
    while the model is not ready, only sets the error message, chosen in
    that order; nothing else changes and the wrapper is not called. *)
Theorem handleFileSelect_refusal (config0 : Config) (file : File) (s : State) :
  negb (String.prefix "image/" (file_type file))
  || (10 * 1024 * 1024 <? file_size file)%N
  || negb (isModelLoaded s) = true ->
  handleFileSelect config0 file s =
  (inl tt,
   {| isModelLoaded := isModelLoaded s;
      world := world s;
      trace := trace s;
      react := {| isProcessing := isProcessing (react s);
                  processedImage := processedImage (react s);
                  error :=
                    Some (if negb (String.prefix "image/" (file_type file))
                          then "请选择有效的图片文件（JPG、PNG、WEBP等）"
                          else if (10 * 1024 * 1024 <? file_size file)%N
                               then "图片文件大小不能超过10MB"
                               else "AI模型尚未加载完成，请稍候再试");
                  modelLoaded := modelLoaded (react s);
                  loadingProgress := loadingProgress (react s);
                  config := config (react s) |} |}).
Proof.
  intros G. rewrite (handleFileSelect_refuses config0 file s G). reflexivity.
Qed.

(** X14. If the inference started by [handleFileSelect] fails, the message
    shown is the wrapper's generic one, whatever the library rejected with;
    the previous result stays, and the model stays ready. *)
Theorem handleFileSelect_failure_shows_generic_message (config0 : Config)
  (file : File) (s : State) (b : bool) (f' : File) (c' : Config) (e : ExtErr) :
  In (b, EvRemoveBackground f' c' (inr e))
     (newEvents s (snd (handleFileSelect config0 file s))) ->
  error (react (snd (handleFileSelect config0 file s))) =
    Some "背景去除失败，请重试"
  /\ processedImage (react (snd (handleFileSelect config0 file s))) =
     processedImage (react s)
  /\ isProcessing (react (snd (handleFileSelect config0 file s))) = false
  /\ isModelLoaded (snd (handleFileSelect config0 file s)) = true.
Proof.
  intros H. by_cases_handleFileSelect config0 file s.
  - rewrite skipn_length_self in H. destruct H.
  - simpl in H. destruct H as [H | [H | []]]; discriminate H.
  - repeat split.
Qed.

(** X15. If the inference started by [handleFileSelect] succeeds, it was
    called once with the dropped file and the current configuration, the
    result shown is the object URL made from the blob it returned, under the
    name of the dropped file, and the error is cleared. *)
Theorem handleFileSelect_success_shows_blob (config0 : Config) (file : File)
  (s : State) (b : bool) (f' : File) (c' : Config) (blob : Blob) :
  In (b, EvRemoveBackground f' c' (inl blob))
     (newEvents s (snd (handleFileSelect config0 file s))) ->
  f' = file
  /\ c' = config0
  /\ count is_removeBackground
       (newEvents s (snd (handleFileSelect config0 file s))) = 1
  /\ count is_preload
       (newEvents s (snd (handleFileSelect config0 file s))) = 0
  /\ error (react (snd (handleFileSelect config0 file s))) = None
  /\ exists url1 w,
       processedImage (react (snd (handleFileSelect config0 file s))) =
       Some {| original := url1;
               processed := fst (createObjectURL (inr blob) w);
               filename := file_name file |}.
Proof.
  intros H. by_cases_handleFileSelect config0 file s.
  - rewrite skipn_length_self in H. destruct H.
  - simpl in H. destruct H as [H | [H | []]]; try discriminate H.
    injection H as ? ? ? ?; subst.
    repeat split. exists url1, w2. rewrite U2. reflexivity.
  - simpl in H.
    repeat match goal with
           | H : _ \/ _ |- _ => destruct H as [H | H]
           | H : False |- _ => destruct H
           end; discriminate H.
Qed.

(** X16. The size limit is inclusive: an image of up to 10 * 1024 * 1024
    bytes, selected while the model is ready, is handed to the wrapper. *)
Theorem handleFileSelect_accepts_up_to_limit (config0 : Config) (file : File)
  (s : State) :
  String.prefix "image/" (file_type file) = true ->
  (file_size file <= 10485760)%N ->
  isModelLoaded s = true ->
  exists rest,
    newEvents s (snd (handleFileSelect config0 file s)) =
    (true, EvProcessImage file config0) :: rest.
Proof.
  intros Ht Hz Hr.
  assert (Hz' : (10 * 1024 * 1024 <? file_size file)%N = false).
  { apply N.ltb_ge. exact Hz. }
  by_cases_handleFileSelect config0 file s.
  - rewrite Ht, Hz', Hr in G. discriminate G.
  - eexists. reflexivity.
  - eexists. reflexivity.
Qed.

(** What the events that leave the model alone do to a page that is not
    ready. *)
Lemma fold_dispatch_not_ready (evs : list UiEvent) :
  forall s,
    forallb leavesModel evs = true ->
    isModelLoaded s = false ->
    isModelLoaded (fold_left (fun s ev => dispatch ev s) evs s) = false
    /\ trace (fold_left (fun s ev => dispatch ev s) evs s) = trace s
    /\ world (fold_left (fun s ev => dispatch ev s) evs s) = world s.
Proof.
  induction evs as [| ev evs IH]; intros s Hevs Hs; simpl.
  - auto.
  - simpl in Hevs. apply andb_true_iff in Hevs as [Hev Hevs].
    assert (Hstep : isModelLoaded (dispatch ev s) = false
                    /\ trace (dispatch ev s) = trace s
                    /\ world (dispatch ev s) = world s).
    { destruct ev as [updates | updates | file]; unfold dispatch.
      - discriminate Hev.
      - unfold updateOutputConfig.
        rewrite handleConfigChange_same_model
          by (apply modelConfigChanged_false; auto).
        cbn [snd isModelLoaded trace world]. auto.
      - rewrite handleFileSelect_refuses
          by (rewrite Hs; cbn [negb]; apply orb_true_r).
        cbn [snd]. auto. }
    destruct Hstep as (H1 & H2 & H3).
    destruct (IH (dispatch ev s) Hevs H1) as (I1 & I2 & I3).
    rewrite I2, I3. auto.
Qed.

(** X17. A failed initial load is not retried by itself: as long as the
    user only selects files or changes output settings, the page stays not
    ready and the library is not called again. *)
Theorem failed_mount_is_not_retried (w : World) (evs : list UiEvent) :
  forallb leavesModel evs = true ->
  isModelLoaded (mount w) = false ->
  isModelLoaded (run w evs) = false
  /\ trace (run w evs) = trace (mount w)
  /\ world (run w evs) = world (mount w).
Proof.
  intros Hevs Hm. unfold run. apply fold_dispatch_not_ready; assumption.
Qed.


Lemma string_append_assoc (a b c : string) :
  ((a ++ b) ++ c)%string = (a ++ (b ++ c))%string.
Proof.
  induction a as [| x a IH]; simpl; [reflexivity | rewrite IH; reflexivity].
Qed.

(** X19. Changing the output settings after an image has been processed
    does not process it again: the download link still points to the old
    blob, while its file extension follows the newly chosen format. *)
Theorem download_follows_current_format (config0 : Config)
  (updates : OutputUpdates) (s : State) (image : ProcessedImage) :
  processedImage (react s) = Some image ->
  let s' := snd (updateOutputConfig config0 (handleConfigChange config0)
                   updates s) in
  newEvents s s' = []
  /\ exists stem,
       downloadImage (processedImage (react s')) (config (react s')) =
       Some {| href := processed image;
               download :=
                 (stem ++ "." ++
                  match arg_or_default (upd_format updates)
                          (format (output config0)) with
                  | image_png => "png"
                  | image_jpeg => "jpg"
                  | image_webp => "webp"
                  end)%string |}.
Proof.
  intros Himg. cbv zeta. unfold updateOutputConfig.
  rewrite handleConfigChange_same_model
    by (apply modelConfigChanged_false; auto).
  cbn [snd react processedImage config]. split.
  - apply newEvents_nil. reflexivity.
  - rewrite Himg. unfold downloadImage, extension.
    cbn [output format spreadOutput].
    eexists. rewrite <- !string_append_assoc. reflexivity.
Qed.

(** X22. The debug switch of the panel always costs a reload: the wrapper is
    reset and [preload] is called again, with the same model and device and
    the negated debug flag. *)
Theorem debug_toggle_reloads (config0 : Config) (s : State) :
  let updates := {| upd_debug := Some (negb (debug config0));
                    upd_device := None;
                    upd_model := None;
                    upd_output := None |} in
  let s' := snd (updateConfig config0 (handleConfigChange config0) updates s) in
  config (react s') =
    {| debug := negb (debug config0);
       device := device config0;
       model := model config0;
       output := output config0 |}
  /\ exists outcome rest,
       newEvents s s' =
       (isModelLoaded s, EvResetModel)
       :: (false, EvLoadModel (config (react s')))
       :: (false, EvPreload {| preload_model := model config0;
                               preload_debug := negb (debug config0);
                               preload_device := device config0 |} outcome)
       :: rest.
Proof.
  cbv zeta. unfold updateConfig.
  assert (Hc : modelConfigChanged
                 (spreadConfig config0
                    {| upd_debug := Some (negb (debug config0));
                       upd_device := None;
                       upd_model := None;
                       upd_output := None |}) config0 = true).
  { unfold modelConfigChanged, spreadConfig. simpl.
    destruct (model config0), (device config0), (debug config0); reflexivity. }
  destruct (handleConfigChange_reload config0 _ s Hc)
    as (Hcfg & [(w & _ & _ & _ & Htr) | (e & w & _ & _ & _ & Htr)]);
    rewrite Hcfg; (split; [reflexivity |]).
  - exists (inl tt), []. apply newEvents_app. exact Htr.
  - eexists (inr e), _. apply newEvents_app. exact Htr.
Qed.

(** ** The name of the downloaded file *)

Lemma removeExtension_eq (s : string) :
  removeExtension s =
  if matchesExtension s then EmptyString
  else
    match s with
    | EmptyString => EmptyString
    | String c s' => String c (removeExtension s')
    end.
Proof.
  destruct s; reflexivity.
Qed.

Lemma matchesExtension_cons (c : ascii) (t : string) :
  matchesExtension (String c t) =
  Ascii.eqb c "."
  && match t with
     | EmptyString => false
     | String _ _ => onlyNotSlashOrDot t
     end.
Proof.
  destruct t as [| c' t]; simpl.
  - rewrite andb_false_r. reflexivity.
  - rewrite andb_assoc. reflexivity.
Qed.

Lemma onlyNotSlashOrDot_dot (a b : string) :
  onlyNotSlashOrDot (a ++ String "." b)%string = false.
Proof.
  induction a as [| x a IH]; simpl.
  - reflexivity.
  - rewrite IH. apply andb_false_r.
Qed.

Lemma matchesExtension_before_dot (c : ascii) (a b : string) :
  matchesExtension (String c (a ++ String "." b)%string) = false.
Proof.
  rewrite matchesExtension_cons.
  destruct (a ++ String "." b)%string as [| c' t] eqn:E.
  - apply andb_false_r.
  - rewrite <- E, onlyNotSlashOrDot_dot. apply andb_false_r.
Qed.

(** X20. [removeExtension] cuts off exactly the last extension: for a name
    [base.ext] where [ext] is not empty and has no dot and no slash, the
    result is [base], whatever dots and slashes [base] has; a name that is
    only an extension, such as a hidden file, is left with nothing. *)
Theorem removeExtension_strips_last_extension (base : string) (c : ascii)
  (ext : string) :
  onlyNotSlashOrDot (String c ext) = true ->
  removeExtension (base ++ "." ++ String c ext)%string = base
  /\ removeExtension ("." ++ String c ext)%string = EmptyString.
Proof.
  intros H.
  assert (Hdot : removeExtension (String "." (String c ext)) = EmptyString).
  { rewrite removeExtension_eq, matchesExtension_cons, H. reflexivity. }
  split; [ | exact Hdot ].
  induction base as [| x base IH].
  - exact Hdot.
  - change ((String x base ++ "." ++ String c ext)%string)
      with (String x (base ++ String "." (String c ext))%string).
    rewrite removeExtension_eq, matchesExtension_before_dot.
    change (base ++ String "." (String c ext))%string
      with (base ++ "." ++ String c ext)%string.
    rewrite IH. reflexivity.
Qed.

(** X21. [removeExtension] only ever cuts a suffix, and one that is an
    extension; a name that ends in a dot is returned whole. *)
Theorem removeExtension_cuts_suffix (s : string) :
  (exists t,
     s = (removeExtension s ++ t)%string
     /\ (t = EmptyString \/ matchesExtension t = true))
  /\ removeExtension (s ++ ".")%string = (s ++ ".")%string.
Proof.
  split.
  - induction s as [| c s IH].
    + exists EmptyString. split; [reflexivity | left; reflexivity].
    + rewrite removeExtension_eq.
      destruct (matchesExtension (String c s)) eqn:M.
      * exists (String c s). split; [reflexivity | right; exact M].
      * destruct IH as (t & Ht & Hm). exists t. split; [ | exact Hm ].
        simpl. rewrite <- Ht. reflexivity.
  - induction s as [| c s IH].
    + reflexivity.
    + change ((String c s ++ ".")%string)
        with (String c (s ++ String "." EmptyString)%string).
      rewrite removeExtension_eq, matchesExtension_before_dot.
      change (s ++ String "." EmptyString)%string with (s ++ ".")%string.
      rewrite IH. reflexivity.
Qed.

End Program.

Arguments isModelLoaded {World ExtErr Blob} s.
Arguments world {World ExtErr Blob} s.
Arguments trace {World ExtErr Blob} s.
Arguments react {World ExtErr Blob} s.
Arguments Raised {ExtErr} e.
Arguments NewError {ExtErr} message.
Arguments EvLoadModel {ExtErr Blob} config.
Arguments EvProcessImage {ExtErr Blob} imageFile config.
Arguments EvResetModel {ExtErr Blob}.
Arguments EvPreload {ExtErr Blob} args outcome.
Arguments EvRemoveBackground {ExtErr Blob} imageFile config outcome.
Arguments EvConsoleError {ExtErr Blob} label error.
Arguments loadModel {World ExtErr Blob} preload config _.
Arguments processImageBackgroundRemoval {World ExtErr Blob} preload
  removeBackground imageFile config _.
Arguments isModelReady {World ExtErr Blob} _.
Arguments resetModel {World ExtErr Blob} _.
Arguments handleConfigChange {World ExtErr Blob} preload config newConfig _.
Arguments updateOutputConfig {World ExtErr Blob} config onConfigChange updates _.
Arguments run {World ExtErr Blob} preload removeBackground createObjectURL
  errorMessage w evs.
Arguments run_ops {World ExtErr Blob} preload removeBackground ops s.
Arguments newEvents {World ExtErr Blob} s s'.
Arguments count {ExtErr Blob} p tr.
Arguments is_loadModel {ExtErr Blob} ev.
Arguments is_preload {ExtErr Blob} ev.
Arguments is_removeBackground {ExtErr Blob} ev.
Arguments lastPreloaded {ExtErr Blob} tr.
Arguments readyConsistent {World ExtErr Blob} cfg s.
Arguments mount {World ExtErr Blob} preload w.
Arguments handleFileSelect {World ExtErr Blob} preload removeBackground
  createObjectURL errorMessage config file _.
Arguments run_op {World ExtErr Blob} preload removeBackground op s.

(** * The properties on examples *)

Section Examples.

Import Fake.

(** A page just opened, nothing loaded, the library untouched. *)
Local Notation "'opened'" := (initialState World ExtErr Blob 0).



(** A [preload] that cannot fetch the model. *)
Lemma loadModel_failure_rethrown_example :
  fst (loadModel preload_fail None opened) = inr (Raised "Failed to fetch")
  /\ isModelLoaded (snd (loadModel preload_fail None opened)) = false
  /\ fst (isModelReady (snd (loadModel preload_fail None opened))) = inl false
  /\ react (snd (loadModel preload_fail None opened)) = react opened
  /\ newEvents opened (snd (loadModel preload_fail None opened)) =
     [(false, EvLoadModel defaultConfig);
      (false, EvPreload (preloadArgs defaultConfig) (inr "Failed to fetch"));
      (false, EvConsoleError "Failed to preload model:"
                (Raised "Failed to fetch"))].
Proof.
  apply (loadModel_failure_rethrown World ExtErr Blob preload_fail None opened
           "Failed to fetch" 1); reflexivity.
Defined.

(** An inference that rejects after a lazy load that went well. *)
Lemma inference_failure_is_generic_example :
  fst (processImageBackgroundRemoval preload_ok removeBackground_fail photo
         None opened) = inr (NewError "背景去除失败，请重试")
  /\ In (true, EvConsoleError "Background removal failed:"
                 (Raised "Unsupported format"))
        (newEvents opened
           (snd (processImageBackgroundRemoval preload_ok removeBackground_fail
                   photo None opened))).
Proof.
  apply (inference_failure_is_generic World ExtErr Blob preload_ok
           removeBackground_fail photo None opened
           true photo defaultConfig "Unsupported format").
  vm_compute. tauto.
Defined.

(** Loading twice in a row, and loading when ready. *)
Lemma loadModel_idempotent_example :
  count is_preload
    (newEvents opened
       (snd (loadModel preload_ok (Some quint8Config)
               (snd (loadModel preload_ok None opened))))) = 1
  /\ count is_preload
       (newEvents (snd (loadModel preload_ok None opened))
          (snd (loadModel preload_ok (Some quint8Config)
                  (snd (loadModel preload_ok None opened))))) = 0.
Proof.
  split.
  - apply (proj2 (loadModel_idempotent World ExtErr Blob preload_ok
                    None (Some quint8Config) opened)); reflexivity.
  - apply (proj1 (loadModel_idempotent World ExtErr Blob preload_ok
                    (Some quint8Config) None
                    (snd (loadModel preload_ok None opened)))).
    reflexivity.
Defined.

(** A lazy load followed by the inference: one entry into [loadModel], two
    events before the call of [removeBackground]... *)
Lemma processImage_loads_before_inference_example :
  count is_loadModel
    [(false, EvProcessImage (ExtErr := ExtErr) (Blob := Blob) photo defaultConfig);
     (false, EvLoadModel defaultConfig);
     (false, EvPreload (preloadArgs defaultConfig) (inl tt))] = 1.
Proof.
  apply (proj2 (processImage_loads_before_inference World ExtErr Blob
                  preload_ok removeBackground_ok photo None opened)
           [(false, EvProcessImage photo defaultConfig);
            (false, EvLoadModel defaultConfig);
            (false, EvPreload (preloadArgs defaultConfig) (inl tt))]
           (true, EvRemoveBackground photo defaultConfig (inl image_png))
           []);
    reflexivity.
Defined.

(** A lazy load that cannot fetch the model. *)
Lemma lazy_load_failure_is_generic_example :
  fst (processImageBackgroundRemoval preload_fail removeBackground_ok photo
         None opened) = inr (NewError "背景去除失败，请重试")
  /\ isModelLoaded
       (snd (processImageBackgroundRemoval preload_fail removeBackground_ok
               photo None opened)) = false
  /\ newEvents opened
       (snd (processImageBackgroundRemoval preload_fail removeBackground_ok
               photo None opened)) =
     [(false, EvProcessImage photo defaultConfig);
      (false, EvLoadModel defaultConfig);
      (false, EvPreload (preloadArgs defaultConfig) (inr "Failed to fetch"));
      (false, EvConsoleError "Failed to preload model:"
                (Raised "Failed to fetch"));
      (false, EvConsoleError "Background removal failed:"
                (Raised "Failed to fetch"))].
Proof.
  apply (lazy_load_failure_is_generic World ExtErr Blob preload_fail
           removeBackground_ok photo None opened "Failed to fetch" 1);
    reflexivity.
Defined.

(** A load that resolves. *)
Lemma isModelReady_after_loadModel_example :
  isModelReady (snd (loadModel preload_ok (Some quint8Config) opened)) =
  (inl true, snd (loadModel preload_ok (Some quint8Config) opened)).
Proof.
  apply (isModelReady_after_loadModel World ExtErr Blob preload_ok
           (Some quint8Config) opened).
  reflexivity.
Defined.

(** JPEG at quality 0.5 chosen in the panel of a page whose model is loaded. *)
Lemma output_change_keeps_model_example :
  let jpeg := {| debug := false; device := cpu; model := isnet_fp16;
                 output := {| format := image_jpeg; quality := 0.5%float;
                              type := foreground |} |} in
  let s := snd (loadModel preload_ok None opened) in
  let s' := snd (handleConfigChange preload_ok defaultConfig jpeg s) in
  isModelLoaded s' = true
  /\ world s' = 1
  /\ trace s' = trace s
  /\ newEvents s s' = []
  /\ config (react s') = jpeg.
Proof.
  cbv zeta.
  apply (proj1 (output_change_keeps_model World ExtErr Blob preload_ok
                  defaultConfig
                  {| debug := false; device := cpu; model := isnet_fp16;
                     output := {| format := image_jpeg; quality := 0.5%float;
                                  type := foreground |} |}
                  {| upd_format := Some image_jpeg;
                     upd_quality := Some 0.5%float;
                     upd_type := None |}
                  (snd (loadModel preload_ok None opened))));
    reflexivity.
Defined.

(** ** Further examples *)

(** A ready wrapper stays ready through an inference that fails. *)
Lemma only_resetModel_lowers_flag_example :
  isModelLoaded
    (run_op preload_ok removeBackground_fail (OpProcessImage photo None)
       (snd (loadModel preload_ok None opened))) = true.
Proof.
  apply (only_resetModel_lowers_flag World ExtErr Blob preload_ok
           removeBackground_fail (OpProcessImage photo None)
           (snd (loadModel preload_ok None opened))).
  - reflexivity.
  - intros H. discriminate H.
Defined.


(** The network comes back between two attempts. *)
Lemma loadModel_retry_after_failure_example :
  fst (loadModel preload_flaky None (snd (loadModel preload_flaky None opened)))
    = inl tt
  /\ isModelLoaded
       (snd (loadModel preload_flaky None
               (snd (loadModel preload_flaky None opened)))) = true
  /\ count is_preload
       (newEvents opened
          (snd (loadModel preload_flaky None
                  (snd (loadModel preload_flaky None opened))))) = 2.
Proof.
  apply (loadModel_retry_after_failure World ExtErr Blob preload_flaky None
           opened "Failed to fetch" 1 2); reflexivity.
Defined.

(** The blob of an inference that went well is what the caller gets. *)
Lemma processImage_single_inference_example :
  fst (processImageBackgroundRemoval preload_ok removeBackground_ok photo None
         opened) = inl image_png.
Proof.
  apply (proj2 (processImage_single_inference World ExtErr Blob preload_ok
                  removeBackground_ok photo None opened)
           true photo defaultConfig (inl image_png)).
  vm_compute. tauto.
Defined.

(** PNG or JPEG output: the same load. *)
Lemma loadModel_ignores_output_example :
  let jpeg := {| debug := false; device := cpu; model := isnet_fp16;
                 output := {| format := image_jpeg; quality := 0.5%float;
                              type := mask |} |} in
  fst (loadModel preload_fail (Some defaultConfig) opened) =
  fst (loadModel preload_fail (Some jpeg) opened).
Proof.
  cbv zeta.
  apply (loadModel_ignores_output World ExtErr Blob preload_fail defaultConfig
           {| debug := false; device := cpu; model := isnet_fp16;
              output := {| format := image_jpeg; quality := 0.5%float;
                           type := mask |} |} opened).
  reflexivity.
Defined.

(** A PDF is refused before anything else is looked at. *)
Lemma handleFileSelect_refusal_example :
  error (react (snd (handleFileSelect preload_ok removeBackground_ok
                       createObjectURL errorMessage defaultConfig manual
                       opened))) =
  Some "请选择有效的图片文件（JPG、PNG、WEBP等）".
Proof.
  exact (f_equal (fun r => error (react (snd r)))
           (handleFileSelect_refusal World ExtErr Blob preload_ok
              removeBackground_ok createObjectURL errorMessage defaultConfig
              manual opened eq_refl)).
Defined.

(** The library rejects the image: the page shows the generic message. *)
Lemma handleFileSelect_failure_shows_generic_message_example :
  error (react (snd (handleFileSelect preload_ok removeBackground_fail
                       createObjectURL errorMessage defaultConfig photo
                       (mount preload_ok 0)))) =
  Some "背景去除失败，请重试".
Proof.
  apply (handleFileSelect_failure_shows_generic_message World ExtErr Blob
           preload_ok removeBackground_fail createObjectURL errorMessage
           defaultConfig photo (mount preload_ok 0)
           true photo defaultConfig "Unsupported format").
  vm_compute. tauto.
Defined.

(** The library returns a blob: the page shows it under the file's name. *)
Lemma handleFileSelect_success_shows_blob_example :
  error (react (snd (handleFileSelect preload_ok removeBackground_ok
                       createObjectURL errorMessage defaultConfig photo
                       (mount preload_ok 0)))) = None
  /\ count is_removeBackground
       (newEvents (mount preload_ok 0)
          (snd (handleFileSelect preload_ok removeBackground_ok
                  createObjectURL errorMessage defaultConfig photo
                  (mount preload_ok 0)))) = 1.
Proof.
  destruct (handleFileSelect_success_shows_blob World ExtErr Blob
              preload_ok removeBackground_ok createObjectURL errorMessage
              defaultConfig photo (mount preload_ok 0)
              true photo defaultConfig image_png)
    as (_ & _ & Hcount & _ & Herr & _).
  - vm_compute. tauto.
  - split; [exact Herr | exact Hcount].
Defined.

(** Exactly 10 MB passes. *)
Lemma handleFileSelect_accepts_up_to_limit_example :
  exists rest,
    newEvents (mount preload_ok 0)
      (snd (handleFileSelect preload_ok removeBackground_ok createObjectURL
              errorMessage defaultConfig poster (mount preload_ok 0))) =
    (true, EvProcessImage poster defaultConfig) :: rest.
Proof.
  apply (handleFileSelect_accepts_up_to_limit World ExtErr Blob preload_ok
           removeBackground_ok createObjectURL errorMessage defaultConfig
           poster (mount preload_ok 0)).
  - reflexivity.
  - vm_compute. intros H. discriminate H.
  - reflexivity.
Defined.

(** The model could not be fetched; dropping a photo and asking for JPEG
    does not make the page try again. *)
Lemma failed_mount_is_not_retried_example :
  let evs := [FileSelect photo;
              UpdateOutputConfig {| upd_format := Some image_jpeg;
                                    upd_quality := None;
                                    upd_type := None |}] in
  isModelLoaded (run preload_fail removeBackground_ok createObjectURL
                   errorMessage 0 evs) = false
  /\ trace (run preload_fail removeBackground_ok createObjectURL
              errorMessage 0 evs) = trace (mount preload_fail 0)
  /\ world (run preload_fail removeBackground_ok createObjectURL
              errorMessage 0 evs) = 1.
Proof.
  cbv zeta.
  apply (failed_mount_is_not_retried World ExtErr Blob preload_fail
           removeBackground_ok createObjectURL errorMessage 0
           [FileSelect photo;
            UpdateOutputConfig {| upd_format := Some image_jpeg;
                                  upd_quality := None;
                                  upd_type := None |}]);
    reflexivity.
Defined.


(** A photo processed as PNG, then JPEG chosen in the panel. *)
Lemma download_follows_current_format_example :
  let s := run preload_ok removeBackground_ok createObjectURL errorMessage 0
             [FileSelect photo] in
  let s' := snd (updateOutputConfig defaultConfig
                   (handleConfigChange preload_ok defaultConfig)
                   {| upd_format := Some image_jpeg; upd_quality := None;
                      upd_type := None |} s) in
  newEvents s s' = []
  /\ exists stem,
       downloadImage (processedImage (react s')) (config (react s')) =
       Some {| href := "blob:"; download := (stem ++ ".jpg")%string |}.
Proof.
  cbv zeta.
  apply (download_follows_current_format World ExtErr Blob preload_ok
           defaultConfig
           {| upd_format := Some image_jpeg; upd_quality := None;
              upd_type := None |}
           (run preload_ok removeBackground_ok createObjectURL errorMessage 0
              [FileSelect photo])
           {| original := "blob:"; processed := "blob:";
              filename := "cat.png" |}).
  reflexivity.
Defined.

(** Only the last extension goes. *)
Lemma removeExtension_strips_last_extension_example :
  removeExtension "poster.v2.jpeg" = "poster.v2"
  /\ removeExtension ".jpeg" = EmptyString.
Proof.
  apply (removeExtension_strips_last_extension "poster.v2" "j" "peg").
  reflexivity.
Defined.

End Examples.
